(** * Wikipedia pageview acquisition notebook: model and properties

    Shallow embedding of the code cells of [data_aquisition.ipynb]:
    the constants cell, [request_pageviews_per_article] and the data
    acquisition loop.

    Conventions of the model:
    - a Python [str] is a Rocq [string] holding its UTF-8 bytes.  The
      only characters the code looks at (space, underscore, slash, the
      braces of the format string) are ASCII, and [urllib.parse.quote]
      works on the UTF-8 bytes anyway;
    - a Python float is an IEEE binary64 [float];
    - the module-level dict [ARTICLE_PAGEVIEWS_PARAMS_TEMPLATE] is a
      [gmap string string] stored in the program state, because the
      function mutates it in place;
    - the network is a function from the request number and the URL to
      what the attempt does. *)

From Stdlib Require Import ZArith Floats Ascii String List.
From stdpp Require Import base gmap strings list.

Local Open Scope string_scope.
Local Open Scope list_scope.

(** ** Strings *)

Module PyStr.

(** [s.replace(old, new)] for one-character [old] and [new], the only
    way the notebook calls it. *)
Fixpoint replace (old new : ascii) (s : string) : string :=
  match s with
  | EmptyString => EmptyString
  | String c r =>
      String (if Ascii.eqb c old then new else c) (replace old new r)
  end.

(** [needle in s] on two strings: substring test. *)
Fixpoint contains (needle s : string) : bool :=
  String.prefix needle s ||
  match s with
  | EmptyString => false
  | String _ r => contains needle r
  end.

(** [c in s] for a character. *)
Fixpoint mem (c : ascii) (s : string) : bool :=
  match s with
  | EmptyString => false
  | String d r => Ascii.eqb c d || mem c r
  end.

(** Number of occurrences of a character. *)
Fixpoint count (c : ascii) (s : string) : nat :=
  match s with
  | EmptyString => 0
  | String d r => (if Ascii.eqb d c then 1 else 0) + count c r
  end.

(** Truth value of a string: non-empty. *)
Definition truthy (s : string) : bool :=
  match s with EmptyString => false | _ => true end.

End PyStr.

(** ** [urllib.parse.quote] *)

Module Urllib.

(** [_ALWAYS_SAFE]: letters, digits and [_.-~]. *)
Definition always_safe (c : ascii) : bool :=
  let n := nat_of_ascii c in
  ((65 <=? n)%nat && (n <=? 90)%nat) || ((97 <=? n)%nat && (n <=? 122)%nat)
  || ((48 <=? n)%nat && (n <=? 57)%nat)
  || PyStr.mem c "_.-~".

Definition hex_digit (n : nat) : ascii :=
  if (n <? 10)%nat then ascii_of_nat (48 + n) else ascii_of_nat (55 + n).

(** ['%{:02X}'.format(b)] *)
Definition percent (c : ascii) : string :=
  let n := nat_of_ascii c in
  String "%" (String (hex_digit (n / 16)) (String (hex_digit (n mod 16)) EmptyString)).

(** The per-byte quoter of [quote_from_bytes]. *)
Definition quoter (safe : string) (c : ascii) : string :=
  if always_safe c || PyStr.mem c safe then String c EmptyString else percent c.

Fixpoint quote_from_bytes (safe : string) (bs : string) : string :=
  match bs with
  | EmptyString => EmptyString
  | String c r => quoter safe c +:+ quote_from_bytes safe r
  end.

(** [quote(string, safe='/')]: the notebook passes no [safe], so the
    default applies. *)
Definition default_safe : string := "/".

Definition quote (s : string) : string := quote_from_bytes default_safe s.

End Urllib.

(** ** Constants cell *)

Definition API_REQUEST_PAGEVIEWS_ENDPOINT : string :=
  "https://wikimedia.org/api/rest_v1/metrics/pageviews/".

Definition API_REQUEST_PER_ARTICLE_PARAMS : string :=
  "per-article/{project}/{access}/{agent}/{article}/{granularity}/{start}/{end}".

#[warnings="-inexact-float"] Definition API_LATENCY_ASSUMED : float := 0.002%float.
Definition API_THROTTLE_WAIT : float := (1.0 / 100.0 - API_LATENCY_ASSUMED)%float.

Definition REQUEST_HEADERS : list (string * string) :=
  [("User-Agent", "<trips@uw.edu>, University of Washington, MSDS DATA 512 - AUTUMN 2024")].

Definition ARTICLE_PAGEVIEWS_PARAMS_TEMPLATE : gmap string string :=
  <["project" := "en.wikipedia.org"]>
  (<["access" := "desktop"]>
  (<["agent" := "user"]>
  (<["article" := ""]>
  (<["granularity" := "monthly"]>
  (<["start" := "2015070100"]>
  (<["end" := "2024093000"]> ∅)))))).


(** ** Python values and exceptions *)

(** An exception object: its class and what [str(e)] gives. *)
Inductive exn : Type := Exn (cls msg : string).

Definition exn_str (e : exn) : string := match e with Exn _ msg => msg end.

Inductive result (A : Type) : Type :=
| Ok (a : A)
| Raise (e : exn).
Arguments Ok {A} a.
Arguments Raise {A} e.

(** What [response.json()] can return.  Numbers are Python ints (the
    API's view counts); a body with a fractional number is outside the
    model.  A dict is given by its items in order, one binding per key. *)
#[warnings="-register-all"] Inductive json : Type :=
| JNull
| JBool (b : bool)
| JInt (n : Z)
| JStr (s : string)
| JList (l : list json)
| JDict (d : list (string * json)).

Module Py.

Definition type_name (v : json) : string :=
  match v with
  | JNull => "NoneType" | JBool _ => "bool" | JInt _ => "int"
  | JStr _ => "str" | JList _ => "list" | JDict _ => "dict"
  end.

Fixpoint dict_get (k : string) (d : list (string * json)) : option json :=
  match d with
  | [] => None
  | (k', v) :: r => if String.eqb k k' then Some v else dict_get k r
  end.

(** [bool(v)] *)
Definition truthy (v : json) : bool :=
  match v with
  | JNull => false
  | JBool b => b
  | JInt n => negb (n =? 0)%Z
  | JStr s => PyStr.truthy s
  | JList l => match l with [] => false | _ => true end
  | JDict d => match d with [] => false | _ => true end
  end.

(** [a == b]: bools are ints, lists compare element by element,
    dicts key by key whatever the order. *)
Fixpoint eq (a b : json) {struct a} : bool :=
  match a, b with
  | JNull, JNull => true
  | JBool x, JBool y => Bool.eqb x y
  | JBool x, JInt n => (n =? (if x then 1 else 0))%Z
  | JInt n, JBool x => (n =? (if x then 1 else 0))%Z
  | JInt m, JInt n => (m =? n)%Z
  | JStr s, JStr t => String.eqb s t
  | JList l, JList l' =>
      (fix go (l l' : list json) {struct l} : bool :=
         match l, l' with
         | [], [] => true
         | x :: xs, y :: ys => eq x y && go xs ys
         | _, _ => false
         end) l l'
  | JDict d, JDict d' =>
      (length d =? length d')%nat &&
      (fix go (d : list (string * json)) {struct d} : bool :=
         match d with
         | [] => true
         | (k, v) :: r =>
             match dict_get k d' with
             | Some v' => eq v v'
             | None => false
             end && go r
         end) d
  | _, _ => false
  end.

(** [a + b] *)
Definition as_int (v : json) : option Z :=
  match v with
  | JInt n => Some n
  | JBool b => Some (if b then 1 else 0)%Z
  | _ => None
  end.

Definition add (a b : json) : result json :=
  match as_int a, as_int b with
  | Some m, Some n => Ok (JInt (m + n))
  | _, _ =>
      match a, b with
      | JStr s, JStr t => Ok (JStr (s +:+ t))
      | JList l, JList l' => Ok (JList (l ++ l'))
      | _, _ =>
          Raise (Exn "TypeError"
                   ("unsupported operand type(s) for +: '" +:+ type_name a
                    +:+ "' and '" +:+ type_name b +:+ "'"))
      end
  end.

(** [k in v] for a string [k] *)
Definition contains (k : string) (v : json) : result bool :=
  match v with
  | JDict d => Ok (bool_decide (is_Some (dict_get k d)))
  | JList l => Ok (existsb (eq (JStr k)) l)
  | JStr s => Ok (PyStr.contains k s)
  | _ => Raise (Exn "TypeError"
                  ("argument of type '" +:+ type_name v +:+ "' is not iterable"))
  end.

(** [v[k]] for a string [k] *)
Definition getitem (v : json) (k : string) : result json :=
  match v with
  | JDict d =>
      match dict_get k d with
      | Some x => Ok x
      | None => Raise (Exn "KeyError" ("'" +:+ k +:+ "'"))
      end
  | JList _ =>
      Raise (Exn "TypeError" "list indices must be integers or slices, not str")
  | JStr _ =>
      Raise (Exn "TypeError" "string indices must be integers, not 'str'")
  | _ => Raise (Exn "TypeError"
                  ("'" +:+ type_name v +:+ "' object is not subscriptable"))
  end.

Fixpoint chars (s : string) : list json :=
  match s with
  | EmptyString => []
  | String c r => JStr (String c EmptyString) :: chars r
  end.

(** The elements [for x in v] runs over.  A str yields one-character
    strings; the loops below subscript every element with a key, which
    fails on the first of them however the characters are cut. *)
Definition iter (v : json) : result (list json) :=
  match v with
  | JList l => Ok l
  | JDict d => Ok (map (fun kv => JStr (fst kv)) d)
  | JStr s => Ok (chars s)
  | _ => Raise (Exn "TypeError"
                  ("'" +:+ type_name v +:+ "' object is not iterable"))
  end.

(** [str.format] with the keyword arguments [kw], for format strings made of literal text, the
    escapes [{{] and [}}], and replacement fields that are plain
    names, as [API_REQUEST_PER_ARTICLE_PARAMS] is.  Conversions,
    format specifications and attribute or index lookups inside a
    field are not modelled. *)
Inductive fmode : Type := FText | FOpen | FField (name : string) | FClose.

Definition emit (s : string) (r : result string) : result string :=
  match r with
  | Ok t => Ok (s +:+ t)
  | Raise e => Raise e
  end.

Fixpoint format_go (kw : gmap string string) (m : fmode) (s : string)
  : result string :=
  match s with
  | EmptyString =>
      match m with
      | FText => Ok EmptyString
      | FClose => Raise (Exn "ValueError" "Single '}' encountered in format string")
      | FOpen => Raise (Exn "ValueError" "Single '{' encountered in format string")
      | FField _ => Raise (Exn "ValueError" "expected '}' before end of string")
      end
  | String c r =>
      match m with
      | FText =>
          if Ascii.eqb c "{" then format_go kw FOpen r
          else if Ascii.eqb c "}" then format_go kw FClose r
          else emit (String c EmptyString) (format_go kw FText r)
      | FClose =>
          if Ascii.eqb c "}" then emit "}" (format_go kw FText r)
          else Raise (Exn "ValueError" "Single '}' encountered in format string")
      | FOpen =>
          if Ascii.eqb c "{" then emit "{" (format_go kw FText r)
          else if Ascii.eqb c "}" then
            Raise (Exn "IndexError"
                     "Replacement index 0 out of range for positional args tuple")
          else format_go kw (FField (String c EmptyString)) r
      | FField name =>
          if Ascii.eqb c "}" then
            match kw !! name with
            | Some v => emit v (format_go kw FText r)
            | None => Raise (Exn "KeyError" ("'" +:+ name +:+ "'"))
            end
          else format_go kw (FField (name +:+ String c EmptyString)) r
      end
  end.

Definition format (fmt : string) (kw : gmap string string) : result string :=
  format_go kw FText fmt.

End Py.

(** ** Program state and effects *)

(** One row of the output lists: the dict
    [{"article_title": .., "timestamp": .., "views": ..}]. *)
Record pageview : Type := Pageview {
  article_title : string;
  timestamp : json;
  views : json
}.

(** What the program does to the outside, in order.  [EvCall] is
    instrumentation: it marks the entry into
    [request_pageviews_per_article] with its two varying arguments. *)
Inductive event : Type :=
| EvCall (title : option string) (access_type : string)
| EvSleep (secs : float)
| EvGet (url : string) (headers : list (string * string))
| EvPrint (line : string).

(** What one attempt at the network does: [time.sleep] raises,
    [requests.get] raises, [response.json()] raises, or the body parses.
    The exceptions are instances of [Exception], the class the handler
    names; interrupts of the interpreter are not modelled. *)
Inductive outcome : Type :=
| SleepRaises (e : exn)
| GetRaises (e : exn)
| JsonRaises (e : exn)
| Body (j : json).

Record state : Type := State {
  template : gmap string string;     (* ARTICLE_PAGEVIEWS_PARAMS_TEMPLATE *)
  desktop_dict : list pageview;
  mobile_dict : list pageview;
  cumulative_dict : list pageview;
  trace : list event;                (* oldest first *)
  attempts : nat                     (* network attempts made so far *)
}.

Definition initial_state : state :=
  State ARTICLE_PAGEVIEWS_PARAMS_TEMPLATE [] [] [] [] 0.

(** Computations: state passing, with exceptions that keep the state
    reached when they were raised. *)
Definition M (A : Type) : Type := state -> result A * state.

Definition ret {A} (a : A) : M A := fun st => (Ok a, st).

Definition bind {A B} (m : M A) (k : A -> M B) : M B :=
  fun st =>
    match m st with
    | (Ok a, st') => k a st'
    | (Raise e, st') => (Raise e, st')
    end.

Definition raise {A} (e : exn) : M A := fun st => (Raise e, st).

Definition lift {A} (r : result A) : M A := fun st => (r, st).

Definition try_except {A} (body : M A) (handler : exn -> M A) : M A :=
  fun st =>
    match body st with
    | (Ok a, st') => (Ok a, st')
    | (Raise e, st') => handler e st'
    end.

Declare Scope py_scope.
Delimit Scope py_scope with py.
Notation "x <- m ;; k" := (bind m (fun x => k))
  (at level 100, m at next level, right associativity) : py_scope.
Notation "m ;; k" := (bind m (fun _ => k))
  (at level 100, right associativity) : py_scope.
Local Open Scope py_scope.

Fixpoint for_each {A} (body : A -> M unit) (l : list A) : M unit :=
  match l with
  | [] => ret tt
  | x :: r => body x ;; for_each body r
  end.

Definition emit_event (ev : event) : M unit :=
  fun st => (Ok tt, State (template st) (desktop_dict st) (mobile_dict st)
                          (cumulative_dict st) (trace st ++ [ev]) (attempts st)).

Definition print (line : string) : M unit := emit_event (EvPrint line).

(** [request_template[k] = v] *)
Definition template_set (k v : string) : M unit :=
  fun st => (Ok tt, State (<[k := v]> (template st)) (desktop_dict st) (mobile_dict st)
                          (cumulative_dict st) (trace st) (attempts st)).

(** [request_template[k]] *)
Definition template_get (k : string) : M string :=
  fun st =>
    match template st !! k with
    | Some v => (Ok v, st)
    | None => (Raise (Exn "KeyError" ("'" +:+ k +:+ "'")), st)
    end.

Definition template_all : M (gmap string string) := fun st => (Ok (template st), st).

Definition desktop_append (r : pageview) : M unit :=
  fun st => (Ok tt, State (template st) (desktop_dict st ++ [r]) (mobile_dict st)
                          (cumulative_dict st) (trace st) (attempts st)).

Definition mobile_append (r : pageview) : M unit :=
  fun st => (Ok tt, State (template st) (desktop_dict st) (mobile_dict st ++ [r])
                          (cumulative_dict st) (trace st) (attempts st)).

Definition cumulative_append (r : pageview) : M unit :=
  fun st => (Ok tt, State (template st) (desktop_dict st) (mobile_dict st)
                          (cumulative_dict st ++ [r]) (trace st) (attempts st)).

(** The three lists are bound to [[]] at the top of the acquisition cell. *)
Definition reset_lists : M unit :=
  fun st => (Ok tt, State (template st) [] [] [] (trace st) (attempts st)).

Section Acquisition.

(** The network: what attempt number [n], made at a URL, does. *)
Variable network : nat -> string -> outcome.

(** Entering the [try] block fixes which attempt this is. *)
Definition next_attempt (url : string) : M outcome :=
  fun st => (Ok (network (attempts st) url),
             State (template st) (desktop_dict st) (mobile_dict st)
                   (cumulative_dict st) (trace st) (S (attempts st))).

Definition time_sleep (o : outcome) (secs : float) : M unit :=
  emit_event (EvSleep secs) ;;
  match o with
  | SleepRaises e => raise e
  | _ => ret tt
  end.

(** [requests.get(url, headers=headers)]; the response is the attempt. *)
Definition requests_get (o : outcome) (url : string)
    (headers : list (string * string)) : M outcome :=
  emit_event (EvGet url headers) ;;
  match o with
  | GetRaises e => raise e
  | _ => ret o
  end.

(** [response.json()] *)
Definition response_json (response : outcome) : M json :=
  match response with
  | Body j => ret j
  | JsonRaises e | SleepRaises e | GetRaises e => raise e
  end.

(** [request_pageviews_per_article]; [None] is the result [None].  The
    [request_template] argument is always the module-level dict, held
    in the state. *)
Definition request_pageviews_per_article
    (title : option string) (access_type : string)
    (endpoint_url endpoint_params : string)
    (headers : list (string * string)) : M json :=
  emit_event (EvCall title access_type) ;;
  match title with
  | Some t => if PyStr.truthy t then template_set "article" t else ret tt
  | None => ret tt
  end ;;
  a <- template_get "article" ;;
  if negb (PyStr.truthy a) then
    raise (Exn "Exception" "Must supply an article title to make a pageviews request.")
  else
    template_set "access" access_type ;;
    a <- template_get "article" ;;
    let article_title_encoded := Urllib.quote (PyStr.replace " " "_" a) in
    template_set "article" article_title_encoded ;;
    kw <- template_all ;;
    params <- lift (Py.format endpoint_params kw) ;;
    let request_url := endpoint_url +:+ params in
    try_except
      (o <- next_attempt request_url ;;
       (if (0.0 <? API_THROTTLE_WAIT)%float
        then time_sleep o API_THROTTLE_WAIT else ret tt) ;;
       response <- requests_get o request_url headers ;;
       response_json response)
      (fun e => print (exn_str e) ;; ret JNull).

(** The call as the loop makes it: the other parameters at their
    defaults. *)
Definition fetch (article access_type : string) : M json :=
  request_pageviews_per_article (Some article) access_type
    API_REQUEST_PAGEVIEWS_ENDPOINT API_REQUEST_PER_ARTICLE_PARAMS REQUEST_HEADERS.

(** [v and 'items' in v] *)
Definition has_items (v : json) : M bool :=
  if Py.truthy v then lift (Py.contains "items" v) else ret false.

(** The dict display of the desktop and all-access branches. *)
Definition month_data (article : string) (month_record : json) : M pageview :=
  ts <- lift (Py.getitem month_record "timestamp") ;;
  vs <- lift (Py.getitem month_record "views") ;;
  ret (Pageview article ts vs).

Definition desktop_part (article : string) : M unit :=
  desktop_pageviews <- fetch article "desktop" ;;
  c <- has_items desktop_pageviews ;;
  if c then
    items <- lift (Py.getitem desktop_pageviews "items") ;;
    records <- lift (Py.iter items) ;;
    for_each (fun month_record =>
                desktop_month_data <- month_data article month_record ;;
                desktop_append desktop_month_data) records
  else print ("No desktop data found for " +:+ article).

(** Body of the [zip] loop. *)
Definition mobile_pair (article : string) (p : json * json) : M unit :=
  let (web_record, app_record) := p in
  tw <- lift (Py.getitem web_record "timestamp") ;;
  ta <- lift (Py.getitem app_record "timestamp") ;;
  if Py.eq tw ta then
    ts <- lift (Py.getitem web_record "timestamp") ;;
    vw <- lift (Py.getitem web_record "views") ;;
    va <- lift (Py.getitem app_record "views") ;;
    v <- lift (Py.add vw va) ;;
    mobile_append (Pageview article ts v)
  else ret tt.

Definition mobile_part (article : string) : M unit :=
  mobile_web_pageviews <- fetch article "mobile-web" ;;
  mobile_app_pageviews <- fetch article "mobile-app" ;;
  c1 <- has_items mobile_web_pageviews ;;
  c <- (if c1 then has_items mobile_app_pageviews else ret false) ;;
  if c then
    web_items <- lift (Py.getitem mobile_web_pageviews "items") ;;
    app_items <- lift (Py.getitem mobile_app_pageviews "items") ;;
    web_records <- lift (Py.iter web_items) ;;
    app_records <- lift (Py.iter app_items) ;;
    for_each (mobile_pair article) (zip web_records app_records)
  else print ("No mobile-web or mobile-app data found for " +:+ article).

Definition all_access_part (article : string) : M unit :=
  all_access_pageviews <- fetch article "all-access" ;;
  c <- has_items all_access_pageviews ;;
  if c then
    items <- lift (Py.getitem all_access_pageviews "items") ;;
    records <- lift (Py.iter items) ;;
    for_each (fun cumulative_month =>
                cumulative_month_data <- month_data article cumulative_month ;;
                cumulative_append cumulative_month_data) records
  else print ("No all-access data found for " +:+ article).

(** One turn of [for article in article_titles]. *)
Definition loop_body (article : string) : M unit :=
  desktop_part article ;;
  mobile_part article ;;
  all_access_part article.

(** The acquisition cell. *)
Definition data_acquisition (article_titles : list string) : M unit :=
  reset_lists ;;
  for_each loop_body article_titles.

End Acquisition.

(** ** Vocabulary of the properties *)

(** The encoded title, as a function of the title. *)
Definition encode_title (a : string) : string :=
  Urllib.quote (PyStr.replace " " "_" a).

(** The template keeps its seven fields. *)
Definition template_fields : list string :=
  ["project"; "access"; "agent"; "article"; "granularity"; "start"; "end"].

Definition template_ok (kw : gmap string string) : Prop :=
  Forall (fun k => is_Some (kw !! k)) template_fields.

Definition fld (kw : gmap string string) (k : string) : string :=
  default "" (kw !! k).

(** The path the format string expands to. *)
Definition params_of (kw : gmap string string) : string :=
  "per-article/" +:+ fld kw "project" +:+ "/" +:+ fld kw "access" +:+ "/"
  +:+ fld kw "agent" +:+ "/" +:+ fld kw "article" +:+ "/"
  +:+ fld kw "granularity" +:+ "/" +:+ fld kw "start" +:+ "/" +:+ fld kw "end".

(** The article the call works on: the argument when it is truthy, else
    what the template holds. *)
Definition effective_template (title : option string) (kw : gmap string string)
  : gmap string string :=
  match title with
  | Some t => if PyStr.truthy t then <["article" := t]> kw else kw
  | None => kw
  end.

Definition attempt_value (o : outcome) : json :=
  match o with
  | Body j => j
  | _ => JNull
  end.

Definition attempt_events (o : outcome) (url : string)
    (headers : list (string * string)) : list event :=
  EvSleep API_THROTTLE_WAIT ::
  match o with
  | SleepRaises e => [EvPrint (exn_str e)]
  | GetRaises e | JsonRaises e => [EvGet url headers; EvPrint (exn_str e)]
  | Body _ => [EvGet url headers]
  end.

(** The calls of the fetcher recorded in a trace. *)
Fixpoint calls (tr : list event) : list (option string * string) :=
  match tr with
  | [] => []
  | EvCall t a :: r => (t, a) :: calls r
  | _ :: r => calls r
  end.

Definition calls_made (st : state) : list (option string * string) :=
  calls (trace st).

(** The lines printed in a trace. *)
Fixpoint prints (tr : list event) : list string :=
  match tr with
  | [] => []
  | EvPrint l :: r => l :: prints r
  | _ :: r => prints r
  end.

(** The GET requests of a trace. *)
Fixpoint gets (tr : list event) : list (string * list (string * string)) :=
  match tr with
  | [] => []
  | EvGet u h :: r => (u, h) :: gets r
  | _ :: r => gets r
  end.

(** A monthly record of the API: a dict with a string timestamp and an
    integer count (and whatever other fields). *)
Definition as_month (r : json) : option (string * Z) :=
  match r with
  | JDict d =>
      match Py.dict_get "timestamp" d, Py.dict_get "views" d with
      | Some (JStr ts), Some (JInt n) => Some (ts, n)
      | _, _ => None
      end
  | _ => None
  end.

Definition is_month (r : json) : bool :=
  match as_month r with Some _ => true | None => false end.

(** [None], or an object without the key ['items']. *)
Definition no_items (v : json) : Prop :=
  v = JNull \/ exists d, v = JDict d /\ Py.dict_get "items" d = None.

Definition null_or_object (v : json) : Prop :=
  v = JNull \/ exists d, v = JDict d.

(** What the API answers: nothing, an error object, or an object whose
    ['items'] is a list of monthly records. *)
Definition well_formed (v : json) : bool :=
  match v with
  | JNull => true
  | JDict d =>
      match Py.dict_get "items" d with
      | None => true
      | Some (JList l) => forallb is_month l
      | Some _ => false
      end
  | _ => false
  end.

(** [row] is what the desktop and all-access branches make of the
    record [r]. *)
Definition row_of (article : string) (r : json) (row : pageview) : Prop :=
  article_title row = article
  /\ Py.getitem r "timestamp" = Ok (timestamp row)
  /\ Py.getitem r "views" = Ok (views row).

(** A record with the two fields the loop reads. *)
Definition has_month_fields (r : json) : Prop :=
  (exists t, Py.getitem r "timestamp" = Ok t) /\ (exists v, Py.getitem r "views" = Ok v).

(** Only the three output lists matter to [f]. *)
Definition output_only {X} (f : state -> X) : Prop :=
  forall t d m c tr n t' tr' n',
    f (State t d m c tr n) = f (State t' d m c tr' n').

(** The row made from a monthly record. *)
Definition month_row (article : string) (p : string * Z) : pageview :=
  Pageview article (JStr (fst p)) (JInt (snd p)).

(** The rows the mobile merge makes from two lists of monthly records. *)
Definition merge_pair (article : string) (p : (string * Z) * (string * Z))
  : option pageview :=
  if String.eqb (fst (fst p)) (fst (snd p))
  then Some (Pageview article (JStr (fst (fst p))) (JInt (snd (fst p) + snd (snd p))))
  else None.

Definition merge_rows (article : string) (web app : list (string * Z)) : list pageview :=
  omap (merge_pair article) (zip web app).

(** The calls one turn of the loop makes. *)
Definition turn_calls (article : string) : list (option string * string) :=
  [(Some article, "desktop"); (Some article, "mobile-web");
   (Some article, "mobile-app"); (Some article, "all-access")].

(** A state with one more printed line. *)
Definition with_print (st : state) (line : string) : state :=
  State (template st) (desktop_dict st) (mobile_dict st) (cumulative_dict st)
        (trace st ++ [EvPrint line]) (attempts st).

(** A computation leaves a component of the state as it was, whether it
    returns or raises. *)
Definition frames {A X} (f : state -> X) (m : M A) : Prop :=
  forall st, f (snd (m st)) = f st.

Section NormalForm.

Variable network : nat -> string -> outcome.

(** [request_pageviews_per_article] path by path. *)
Definition request_normal_form (title : option string)
    (access_type endpoint_url endpoint_params : string)
    (headers : list (string * string)) (st : state) : result json * state :=
  let tpl1 := effective_template title (template st) in
  let tr1 := trace st ++ [EvCall title access_type] in
  let stop (kw : gmap string string) :=
    State kw (desktop_dict st) (mobile_dict st) (cumulative_dict st) tr1 (attempts st) in
  match tpl1 !! "article" with
  | None => (Raise (Exn "KeyError" "'article'"), stop tpl1)
  | Some a =>
      if PyStr.truthy a then
        let tpl3 := <["article" := encode_title a]> (<["access" := access_type]> tpl1) in
        match Py.format endpoint_params tpl3 with
        | Raise e => (Raise e, stop tpl3)
        | Ok params =>
            let url := endpoint_url +:+ params in
            let o := network (attempts st) url in
            (Ok (attempt_value o),
             State tpl3 (desktop_dict st) (mobile_dict st) (cumulative_dict st)
                   (tr1 ++ attempt_events o url headers) (S (attempts st)))
        end
      else
        (Raise (Exn "Exception" "Must supply an article title to make a pageviews request."),
         stop tpl1)
  end.

End NormalForm.

(** A stub network for the article "Bison": two months on each access
    type. *)
Definition bison_items (a b : Z) : json :=
  JDict [("items",
          JList [JDict [("timestamp", JStr "2015070100"); ("views", JInt a)];
                 JDict [("timestamp", JStr "2015080100"); ("views", JInt b)]])].

Definition bison_network (n : nat) (url : string) : outcome :=
  match n with
  | 0 => Body (bison_items 10 20)
  | 1 => Body (bison_items 1 2)
  | 2 => Body (bison_items 3 4)
  | _ => Body (bison_items 14 26)
  end.

(** The states of the turn for "Bison" on the stub network. *)
Definition bison_after_desktop : state :=
  snd (desktop_part bison_network "Bison" initial_state).

Definition bison_after_web : state :=
  snd (fetch bison_network "Bison" "mobile-web" bison_after_desktop).

Definition bison_after_app : state :=
  snd (fetch bison_network "Bison" "mobile-app" bison_after_web).

Definition bison_months (a b : Z) : list json :=
  [JDict [("timestamp", JStr "2015070100"); ("views", JInt a)];
   JDict [("timestamp", JStr "2015080100"); ("views", JInt b)]].

(** A network on which every GET fails, with the message the notebook's
    recorded output shows. *)
Definition unreachable_network (n : nat) (url : string) : outcome :=
  GetRaises (Exn "ConnectionError" "('Connection aborted.', OSError(65, 'No route to host'))").

(** A network whose mobile-app answer lacks the middle month of the
    mobile-web answer. *)
Definition gap_web : list json :=
  [JDict [("timestamp", JStr "2015070100"); ("views", JInt 1)];
   JDict [("timestamp", JStr "2015080100"); ("views", JInt 2)];
   JDict [("timestamp", JStr "2015090100"); ("views", JInt 3)]].

Definition gap_app : list json :=
  [JDict [("timestamp", JStr "2015070100"); ("views", JInt 10)];
   JDict [("timestamp", JStr "2015090100"); ("views", JInt 30)]].

Definition gap_network (n : nat) (url : string) : outcome :=
  match n with
  | 1 => Body (JDict [("items", JList gap_web)])
  | 2 => Body (JDict [("items", JList gap_app)])
  | _ => Body (bison_items 14 26)
  end.

Definition gap_after_desktop : state :=
  snd (desktop_part gap_network "Bison" initial_state).

Definition gap_after_web : state :=
  snd (fetch gap_network "Bison" "mobile-web" gap_after_desktop).

Definition gap_after_app : state :=
  snd (fetch gap_network "Bison" "mobile-app" gap_after_web).

(** ** Vocabulary of the further properties *)

(** [p] holds of every character of [s]. *)
Fixpoint string_forall (p : ascii -> bool) (s : string) : bool :=
  match s with
  | EmptyString => true
  | String c r => p c && string_forall p r
  end.

(** The characters [quote] can put out: the always-safe ones, the safe
    slash, and the percent sign of an escape. *)
Definition url_char (c : ascii) : bool :=
  Urllib.always_safe c || Ascii.eqb c "/" || Ascii.eqb c "%".

(** The URL of a per-article request, from the fields of a template. *)
Definition article_url (endpoint_url : string) (kw : gmap string string)
    (access_type article_encoded : string) : string :=
  endpoint_url +:+ "per-article/" +:+ fld kw "project" +:+ "/" +:+ access_type +:+ "/"
  +:+ fld kw "agent" +:+ "/" +:+ article_encoded +:+ "/"
  +:+ fld kw "granularity" +:+ "/" +:+ fld kw "start" +:+ "/" +:+ fld kw "end".

(** The fields of the template a call does not write. *)
Definition fixed_fields : list string :=
  ["project"; "agent"; "granularity"; "start"; "end"].

(** An invariant of the state that a computation keeps, whether it
    returns or raises. *)
Definition preserves {A} (I : state -> Prop) (m : M A) : Prop :=
  forall st, I st -> I (snd (m st)).

(** A relation between the state before and the state after a
    computation, whether it returns or raises. *)
Definition relates {A} (R : state -> state -> Prop) (m : M A) : Prop :=
  forall st, R st (snd (m st)).

(** Every GET of a trace comes right after a sleep, and every sleep
    lasts [API_THROTTLE_WAIT]; [slept] tells whether the event before
    the trace was such a sleep. *)
Fixpoint throttled_from (slept : bool) (tr : list event) : Prop :=
  match tr with
  | [] => True
  | EvSleep d :: r => d = API_THROTTLE_WAIT /\ throttled_from true r
  | EvGet _ _ :: r => slept = true /\ throttled_from false r
  | _ :: r => throttled_from false r
  end.

Definition throttled (tr : list event) : Prop := throttled_from false tr.

(** The trace grows by events that satisfy [P]. *)
Definition extends_by (P : list event -> Prop) (st st' : state) : Prop :=
  exists added, trace st' = trace st ++ added /\ P added.

(** Every row of the three lists is for a title of [titles]. *)
Definition rows_for (titles : list string) (st : state) : Prop :=
  Forall (fun row => article_title row ∈ titles)
         (desktop_dict st ++ mobile_dict st ++ cumulative_dict st).

(** The row the merge makes of two monthly records of one month. *)
Definition sum_row (article : string) (w a : string * Z) : pageview :=
  Pageview article (JStr (fst w)) (JInt (snd w + snd a)).

(** States and networks on which the further properties are tried. *)
Definition no_project_state : state :=
  State (delete "project" ARTICLE_PAGEVIEWS_PARAMS_TEMPLATE) [] [] [] [] 0.

Definition stale_state : state :=
  State (<["article" := "Red_squirrel"]>
           (<["access" := "mobile-app"]> ARTICLE_PAGEVIEWS_PARAMS_TEMPLATE))
        [] [] [] [] 0.

Definition scalar_network (n : nat) (url : string) : outcome := Body (JInt 5).

Definition bad_record_items : list (string * json) :=
  [("items",
    JList ([JDict [("timestamp", JStr "2015070100"); ("views", JInt 10)]]
           ++ JDict [("views", JInt 20)] :: []))].

Definition bad_record_network (n : nat) (url : string) : outcome :=
  Body (JDict bad_record_items).

Definition bison_after_mobile : state :=
  snd (bind (desktop_part bison_network "Bison")
            (fun _ => mobile_part bison_network "Bison") initial_state).

(** * Properties *)

(** ** Worked examples *)

Example quote_space :
  Urllib.quote (PyStr.replace " " "_" "Northern flicker") = "Northern_flicker".
Proof. reflexivity. Qed.

Example quote_apostrophe : encode_title "Crohn's disease" = "Crohn%27s_disease".
Proof. reflexivity. Qed.

Example throttle_positive : (0.0 <? API_THROTTLE_WAIT)%float = true.
Proof. reflexivity. Qed.

Example format_default :
  Py.format API_REQUEST_PER_ARTICLE_PARAMS
    (<["article" := "Bison"]> ARTICLE_PAGEVIEWS_PARAMS_TEMPLATE)
  = Ok "per-article/en.wikipedia.org/desktop/user/Bison/monthly/2015070100/2024093000".
Proof. vm_compute. reflexivity. Qed.

Example eq_dict_order :
  Py.eq (JDict [("a", JInt 1); ("b", JBool true)]) (JDict [("b", JInt 1); ("a", JInt 1)]) = true.
Proof. reflexivity. Qed.

Example bison_run :
  let st := snd (data_acquisition bison_network ["Bison"] initial_state) in
  desktop_dict st = [Pageview "Bison" (JStr "2015070100") (JInt 10);
                     Pageview "Bison" (JStr "2015080100") (JInt 20)]
  /\ mobile_dict st = [Pageview "Bison" (JStr "2015070100") (JInt 4);
                       Pageview "Bison" (JStr "2015080100") (JInt 6)]
  /\ cumulative_dict st = [Pageview "Bison" (JStr "2015070100") (JInt 14);
                           Pageview "Bison" (JStr "2015080100") (JInt 26)].
Proof. vm_compute. auto. Qed.

(** A run stops at the first exception that leaves the fetcher or the
    loop body: an empty first title, or a record without its fields. *)
Example empty_first_title_raises :
  let run := data_acquisition bison_network [""; "Bison"] initial_state in
  fst run = Raise (Exn "Exception" "Must supply an article title to make a pageviews request.")
  /\ calls_made (snd run) = [(Some "", "desktop")].
Proof. vm_compute. auto. Qed.

Example record_without_fields_raises :
  let network := fun (n : nat) (url : string) => Body (JDict [("items", JList [JDict []])]) in
  let run := data_acquisition network ["Bison"; "Red squirrel"] initial_state in
  fst run = Raise (Exn "KeyError" "'timestamp'")
  /\ calls_made (snd run) = [(Some "Bison", "desktop")].
Proof. vm_compute. auto. Qed.

(** An empty title after a good one reuses what the template holds. *)
Example empty_later_title_reuses :
  let run := data_acquisition bison_network ["Bison"; ""] initial_state in
  fst run = Ok tt
  /\ template (snd run) !! "article" = Some "Bison"
  /\ length (gets (trace (snd run))) = 8.
Proof. vm_compute. auto. Qed.

(** ** Strings and the template *)

Lemma append_empty_r (s : string) : s +:+ "" = s.
Proof.
  induction s as [|c s IH]; [reflexivity|].
  change (String c (s +:+ "") = String c s). now rewrite IH.
Qed.

Lemma template_ok_insert kw k v : template_ok kw -> template_ok (<[k := v]> kw).
Proof.
  unfold template_ok. intros H. eapply Forall_impl; [exact H|].
  intros x [y Hy]; cbn beta.
  destruct (decide (k = x)) as [->|Hne].
  - rewrite lookup_insert_eq. eauto.
  - rewrite lookup_insert_ne by done. eauto.
Qed.

Lemma template_ok_initial : template_ok ARTICLE_PAGEVIEWS_PARAMS_TEMPLATE.
Proof. unfold template_ok, template_fields. repeat constructor; vm_compute; eauto. Qed.

Lemma template_ok_fld kw k :
  template_ok kw -> k ∈ template_fields -> kw !! k = Some (fld kw k).
Proof.
  intros H Hin. unfold template_ok in H. rewrite Forall_forall in H.
  destruct (H k Hin) as [v Hv]. unfold fld. rewrite Hv. reflexivity.
Qed.

Lemma format_params kw :
  template_ok kw ->
  Py.format API_REQUEST_PER_ARTICLE_PARAMS kw = Ok (params_of kw).
Proof.
  intros H.
  unfold Py.format, API_REQUEST_PER_ARTICLE_PARAMS.
  cbn.
  rewrite !(template_ok_fld kw _ H) by (unfold template_fields; set_solver).
  cbn. rewrite append_empty_r. reflexivity.
Qed.

(** ** What the encoding does to a title *)

Ltac ascii_cases c := destruct c as [[] [] [] [] [] [] [] []].

Lemma mem_append c s t : PyStr.mem c (s +:+ t) = PyStr.mem c s || PyStr.mem c t.
Proof.
  induction s as [|d s IH]; [reflexivity|].
  change (Ascii.eqb c d || PyStr.mem c (s +:+ t)
          = Ascii.eqb c d || PyStr.mem c s || PyStr.mem c t).
  rewrite IH. now destruct (Ascii.eqb c d).
Qed.

Lemma count_append c s t : PyStr.count c (s +:+ t) = PyStr.count c s + PyStr.count c t.
Proof.
  induction s as [|d s IH]; [reflexivity|].
  change ((if Ascii.eqb d c then 1 else 0) + PyStr.count c (s +:+ t)
          = (if Ascii.eqb d c then 1 else 0) + PyStr.count c s + PyStr.count c t).
  rewrite IH. lia.
Qed.

Lemma quoter_no_space c : PyStr.mem " " (Urllib.quoter Urllib.default_safe c) = false.
Proof. ascii_cases c; reflexivity. Qed.

Lemma quoter_slash c :
  PyStr.count "/" (Urllib.quoter Urllib.default_safe c) = if Ascii.eqb c "/" then 1 else 0.
Proof. ascii_cases c; reflexivity. Qed.

Lemma quoter_underscore c :
  PyStr.count "_" (Urllib.quoter Urllib.default_safe (if Ascii.eqb c " " then "_" else c)%char)
  = (if Ascii.eqb c " " then 1 else 0) + (if Ascii.eqb c "_" then 1 else 0).
Proof. ascii_cases c; reflexivity. Qed.

Lemma quoter_truthy c : PyStr.truthy (Urllib.quoter Urllib.default_safe c) = true.
Proof. ascii_cases c; reflexivity. Qed.

(** The true half of the encoding: no space survives. *)
Lemma quote_no_space s : PyStr.mem " " (Urllib.quote s) = false.
Proof.
  unfold Urllib.quote. induction s as [|c s IH]; [reflexivity|].
  cbn [Urllib.quote_from_bytes]. rewrite mem_append, quoter_no_space, IH. reflexivity.
Qed.

(** Every space of the title is an underscore of the encoded title. *)
Lemma encode_title_underscores s :
  PyStr.count "_" (encode_title s) = PyStr.count " " s + PyStr.count "_" s.
Proof.
  unfold encode_title, Urllib.quote. induction s as [|c s IH]; [reflexivity|].
  cbn [PyStr.replace Urllib.quote_from_bytes PyStr.count].
  rewrite count_append, quoter_underscore, IH. lia.
Qed.

(** The slashes of the title stay as they are. *)
Lemma encode_title_slashes s :
  PyStr.count "/" (encode_title s) = PyStr.count "/" s.
Proof.
  unfold encode_title, Urllib.quote. induction s as [|c s IH]; [reflexivity|].
  cbn [PyStr.replace Urllib.quote_from_bytes PyStr.count].
  rewrite count_append, quoter_slash, IH. ascii_cases c; reflexivity.
Qed.

Lemma truthy_append s t : PyStr.truthy s = true -> PyStr.truthy (s +:+ t) = true.
Proof. destruct s; [discriminate|reflexivity]. Qed.

Lemma truthy_iff s : PyStr.truthy s = true <-> s <> "".
Proof. destruct s; cbn; split; congruence. Qed.

Lemma encode_title_truthy s : s <> "" -> PyStr.truthy (encode_title s) = true.
Proof.
  destruct s as [|c s]; [congruence|]. intros _.
  unfold encode_title, Urllib.quote. cbn [PyStr.replace Urllib.quote_from_bytes].
  apply truthy_append, quoter_truthy.
Qed.

Section Fetcher.

Variable network : nat -> string -> outcome.

Lemma request_unfold title access_type endpoint_url endpoint_params headers st :
  request_pageviews_per_article network title access_type
    endpoint_url endpoint_params headers st
  = request_normal_form network title access_type
      endpoint_url endpoint_params headers st.
Proof.
  unfold request_pageviews_per_article, request_normal_form, effective_template.
  destruct st as [tpl dd md cd tr n].
  unfold bind, emit_event, template_get, template_set, template_all, lift, raise, ret,
    try_except, next_attempt, time_sleep, requests_get, response_json, print,
    emit_event, bind, ret, raise.
  assert (Hthr : (0 <? API_THROTTLE_WAIT)%float = true) by reflexivity.
  destruct title as [t|]; [destruct (PyStr.truthy t)|];
    cbn [template desktop_dict mobile_dict cumulative_dict trace attempts];
    (match goal with
     | |- context [?m !! "article"] => destruct (m !! "article") as [a|] eqn:Ha
     end; [|reflexivity]);
    (destruct (PyStr.truthy a); cbn [negb]; [|reflexivity]);
    cbn [template desktop_dict mobile_dict cumulative_dict trace attempts];
    rewrite lookup_insert_ne by done; rewrite Ha;
    cbn [template desktop_dict mobile_dict cumulative_dict trace attempts];
    unfold encode_title;
    (match goal with
     | |- context [Py.format ?f ?k] => destruct (Py.format f k) as [params|e]
     end; [|reflexivity]);
    rewrite Hthr;
    (match goal with |- context [network ?i ?u] => destruct (network i u) end);
    cbn [template desktop_dict mobile_dict cumulative_dict trace attempts
         attempt_value attempt_events exn_str];
    rewrite <- ?app_assoc; reflexivity.
Qed.

Lemma final_template title access_type (kw : gmap string string) a :
  effective_template title kw !! "article" = Some a ->
  <["article" := encode_title a]> (<["access" := access_type]> (effective_template title kw))
  = <["article" := encode_title a]> (<["access" := access_type]> kw).
Proof.
  intros _. unfold effective_template.
  destruct title as [t|]; [destruct (PyStr.truthy t)|]; try reflexivity.
  rewrite (insert_insert_ne kw "access" "article") by done.
  rewrite insert_insert_eq. reflexivity.
Qed.

(** A call with an article to work on and a whole template gets as far
    as the network and returns. *)
Lemma request_ok title access_type endpoint_url headers st a :
  template_ok (template st) ->
  effective_template title (template st) !! "article" = Some a ->
  a <> "" ->
  let kw := <["article" := encode_title a]> (<["access" := access_type]> (template st)) in
  let url := endpoint_url +:+ params_of kw in
  let o := network (attempts st) url in
  request_pageviews_per_article network title access_type
    endpoint_url API_REQUEST_PER_ARTICLE_PARAMS headers st
  = (Ok (attempt_value o),
     State kw (desktop_dict st) (mobile_dict st) (cumulative_dict st)
           (trace st ++ EvCall title access_type :: attempt_events o url headers)
           (S (attempts st))).
Proof.
  intros Hok Ha Hne. cbn zeta.
  rewrite request_unfold. unfold request_normal_form.
  rewrite Ha. apply truthy_iff in Hne. rewrite Hne.
  rewrite (final_template _ _ _ _ Ha).
  rewrite format_params by (do 2 apply template_ok_insert; exact Hok).
  rewrite <- app_assoc. reflexivity.
Qed.

Lemma effective_some t (kw : gmap string string) :
  t <> "" -> effective_template (Some t) kw !! "article" = Some t.
Proof.
  intros Hne. unfold effective_template.
  apply truthy_iff in Hne. rewrite Hne. apply lookup_insert_eq.
Qed.

Lemma calls_app tr1 tr2 : calls (tr1 ++ tr2) = calls tr1 ++ calls tr2.
Proof.
  induction tr1 as [|[] tr1 IH]; cbn; rewrite ?IH; reflexivity.
Qed.

Lemma prints_app tr1 tr2 : prints (tr1 ++ tr2) = prints tr1 ++ prints tr2.
Proof.
  induction tr1 as [|[] tr1 IH]; cbn; rewrite ?IH; reflexivity.
Qed.

Lemma gets_app tr1 tr2 : gets (tr1 ++ tr2) = gets tr1 ++ gets tr2.
Proof.
  induction tr1 as [|[] tr1 IH]; cbn; rewrite ?IH; reflexivity.
Qed.

(** C1, at the title the notebook's own output reports as without
    data: the slash of "Sulfadoxine/pyrimethamine" reaches the URL as
    it is, so the title spans two path segments instead of being
    percent-encoded as [%2F]. *)
Theorem slash_not_percent_encoded :
  let url := "https://wikimedia.org/api/rest_v1/metrics/pageviews/per-article/en.wikipedia.org/desktop/user/Sulfadoxine/pyrimethamine/monthly/2015070100/2024093000" in
  let st := snd (fetch network "Sulfadoxine/pyrimethamine" "desktop" initial_state) in
  encode_title "Sulfadoxine/pyrimethamine" = "Sulfadoxine/pyrimethamine"
  /\ template st !! "article" = Some "Sulfadoxine/pyrimethamine"
  /\ gets (trace st) = match network 0 url with
                       | SleepRaises _ => []
                       | _ => [(url, REQUEST_HEADERS)]
                       end.
Proof.
  cbn zeta. split; [reflexivity|].
  unfold fetch. rewrite request_unfold. unfold request_normal_form.
  vm_compute.
  match goal with |- context [network ?i ?u] => destruct (network i u) end;
    split; reflexivity.
Qed.

(** C3: with a non-empty title (and the template's seven fields in
    place) the call never raises: when sleeping, the GET or the JSON
    parsing raises, the exception's text is printed and the result is
    [None]; otherwise the result is the parsed body. *)
Theorem request_errors_give_none (t access_type endpoint_url : string)
    (headers : list (string * string)) (st : state) :
  t <> "" ->
  template_ok (template st) ->
  let kw := <["article" := encode_title t]> (<["access" := access_type]> (template st)) in
  let url := endpoint_url +:+ params_of kw in
  let run := request_pageviews_per_article network (Some t) access_type
               endpoint_url API_REQUEST_PER_ARTICLE_PARAMS headers st in
  match network (attempts st) url with
  | Body j =>
      fst run = Ok j /\ prints (trace (snd run)) = prints (trace st)
  | SleepRaises e | GetRaises e | JsonRaises e =>
      fst run = Ok JNull /\ prints (trace (snd run)) = prints (trace st) ++ [exn_str e]
  end.
Proof.
  intros Hne Hok. cbn zeta.
  rewrite (request_ok (Some t) access_type endpoint_url headers st t Hok
             (effective_some t _ Hne) Hne).
  cbn [fst snd trace].
  destruct (network _ _); cbn [attempt_value]; (split; [reflexivity|]);
    rewrite prints_app; cbn; rewrite ?app_nil_r; reflexivity.
Qed.

(** C7: a call that gets past its checks (it returns instead of
    raising) first sleeps [API_THROTTLE_WAIT], which is
    [1.0/100.0 - API_LATENCY_ASSUMED] with a latency of [2.0/1000.0]
    seconds, is positive, and equals [8.0/1000.0] seconds; the GET comes right after the sleep and carries
    [REQUEST_HEADERS], the fixed User-Agent. Only when the sleep itself
    raises is there no GET. *)
Theorem request_sleeps_before_get (title : option string)
    (access_type endpoint_url endpoint_params : string) (v : json) (st st' : state) :
  request_pageviews_per_article network title access_type
    endpoint_url endpoint_params REQUEST_HEADERS st = (Ok v, st') ->
  API_THROTTLE_WAIT = (1.0 / 100.0 - API_LATENCY_ASSUMED)%float
  /\ API_LATENCY_ASSUMED = (2.0 / 1000.0)%float
  /\ (0.0 <? API_THROTTLE_WAIT)%float = true
  /\ API_THROTTLE_WAIT = (8.0 / 1000.0)%float
  /\ REQUEST_HEADERS
     = [("User-Agent", "<trips@uw.edu>, University of Washington, MSDS DATA 512 - AUTUMN 2024")]
  /\ exists url rest,
      trace st' = trace st ++ EvCall title access_type :: EvSleep API_THROTTLE_WAIT :: rest
      /\ match network (attempts st) url with
         | SleepRaises e => rest = [EvPrint (exn_str e)]
         | GetRaises e | JsonRaises e =>
             rest = [EvGet url REQUEST_HEADERS; EvPrint (exn_str e)]
         | Body _ => rest = [EvGet url REQUEST_HEADERS]
         end.
Proof.
  intros H. do 5 (split; [reflexivity|]).
  rewrite request_unfold in H. unfold request_normal_form in H.
  destruct (effective_template title (template st) !! "article") as [a|]; [|discriminate].
  destruct (PyStr.truthy a); [|discriminate].
  destruct (Py.format endpoint_params _) as [params|e]; [|discriminate].
  injection H as _ <-. cbn [trace].
  exists (endpoint_url +:+ params).
  eexists. rewrite <- app_assoc. split; [reflexivity|].
  destruct (network _ _); reflexivity.
Qed.

(** C8: with no title to work on (the argument is [None] or empty and
    the template's article field is empty) the call raises, and has
    neither slept nor sent anything. *)
Theorem request_without_title_raises (title : option string)
    (access_type endpoint_url endpoint_params : string)
    (headers : list (string * string)) (st : state) :
  title = None \/ title = Some "" ->
  template st !! "article" = Some "" ->
  let run := request_pageviews_per_article network title access_type
               endpoint_url endpoint_params headers st in
  fst run = Raise (Exn "Exception" "Must supply an article title to make a pageviews request.")
  /\ trace (snd run) = trace st ++ [EvCall title access_type]
  /\ gets (trace (snd run)) = gets (trace st)
  /\ attempts (snd run) = attempts st
  /\ template (snd run) = template st.
Proof.
  intros Ht Ha. cbn zeta. rewrite request_unfold. unfold request_normal_form.
  assert (effective_template title (template st) = template st) as ->
    by (destruct Ht as [-> | ->]; reflexivity).
  rewrite Ha. cbn. rewrite gets_app. cbn. rewrite app_nil_r. auto.
Qed.

(** C9: a call with a title leaves the module-level template changed,
    with the given access type and the encoded title in it; a later
    call without a title does not raise: it takes the encoded title
    from the template, encodes it once more, and requests that. *)
Theorem template_mutation_persists (t access_type access_type' endpoint_url : string)
    (headers : list (string * string)) (st : state) :
  t <> "" ->
  template_ok (template st) ->
  let first := request_pageviews_per_article network (Some t) access_type
                 endpoint_url API_REQUEST_PER_ARTICLE_PARAMS headers st in
  let second := request_pageviews_per_article network None access_type'
                  endpoint_url API_REQUEST_PER_ARTICLE_PARAMS headers (snd first) in
  let kw := <["article" := encode_title (encode_title t)]>
              (<["access" := access_type']> (template (snd first))) in
  template (snd first)
    = <["article" := encode_title t]> (<["access" := access_type]> (template st))
  /\ (exists v, fst second = Ok v)
  /\ template (snd second) = kw
  /\ template (snd second) !! "article" = Some (encode_title (encode_title t))
  /\ exists rest,
      trace (snd second)
      = trace (snd first) ++ EvCall None access_type' :: EvSleep API_THROTTLE_WAIT :: rest
      /\ forall u h, (u, h) ∈ gets rest -> u = endpoint_url +:+ params_of kw.
Proof.
  intros Hne Hok. cbn zeta.
  rewrite (request_ok (Some t) access_type endpoint_url headers st t Hok
             (effective_some t _ Hne) Hne).
  cbn [snd template].
  set (kw1 := <["article" := encode_title t]> (<["access" := access_type]> (template st))).
  assert (Hok1 : template_ok kw1) by (do 2 apply template_ok_insert; exact Hok).
  assert (Ha1 : kw1 !! "article" = Some (encode_title t)) by apply lookup_insert_eq.
  assert (Hne1 : encode_title t <> "") by (apply truthy_iff, encode_title_truthy, Hne).
  match goal with
  | |- context [request_pageviews_per_article _ None _ _ _ _ ?s] =>
      rewrite (request_ok None access_type' endpoint_url headers s (encode_title t)
                 Hok1 Ha1 Hne1)
  end.
  cbn [fst snd template trace attempts].
  split; [reflexivity|]. split; [eauto|]. split; [reflexivity|].
  split; [apply lookup_insert_eq|].
  eexists. split; [reflexivity|].
  intros u h. destruct (network _ _); cbn;
    rewrite ?elem_of_nil, ?list_elem_of_singleton; [tauto|congruence..].
Qed.

(** The double encoding of C9 on a title with an apostrophe. *)
Example reencoded_title :
  encode_title "Crohn's disease" = "Crohn%27s_disease"
  /\ encode_title (encode_title "Crohn's disease") = "Crohn%2527s_disease".
Proof. split; reflexivity. Qed.

End Fetcher.



(** ** The monad and what a computation leaves alone *)

Lemma bind_Ok {A B} (m : M A) (k : A -> M B) st a st' :
  m st = (Ok a, st') -> bind m k st = k a st'.
Proof. unfold bind. intros ->. reflexivity. Qed.

Lemma bind_Raise {A B} (m : M A) (k : A -> M B) st e st' :
  m st = (Raise e, st') -> bind m k st = (Raise e, st').
Proof. unfold bind. intros ->. reflexivity. Qed.

Lemma frames_ret {A X} (f : state -> X) (a : A) : frames f (ret a).
Proof. intros st. reflexivity. Qed.

Lemma frames_raise {A X} (f : state -> X) e : frames f (raise (A := A) e).
Proof. intros st. reflexivity. Qed.

Lemma frames_lift {A X} (f : state -> X) (r : result A) : frames f (lift r).
Proof. intros st. reflexivity. Qed.

Lemma frames_bind {A B X} (f : state -> X) (m : M A) (k : A -> M B) :
  frames f m -> (forall a, frames f (k a)) -> frames f (bind m k).
Proof.
  intros Hm Hk st. unfold bind. specialize (Hm st).
  destruct (m st) as [[a|e] st1]; cbn [snd] in *.
  - rewrite Hk. exact Hm.
  - exact Hm.
Qed.

Lemma frames_for_each {A X} (f : state -> X) (body : A -> M unit) l :
  (forall x, frames f (body x)) -> frames f (for_each body l).
Proof.
  intros Hb. induction l as [|x l IH]; cbn [for_each].
  - apply frames_ret.
  - apply frames_bind; [apply Hb | intros _; exact IH].
Qed.

Ltac frames_step :=
  match goal with
  | |- frames _ (bind _ _) => apply frames_bind; [|intros ?]
  | |- frames _ (for_each _ _) => apply frames_for_each; intros ?
  | |- frames _ (ret _) => apply frames_ret
  | |- frames _ (raise _) => apply frames_raise
  | |- frames _ (lift _) => apply frames_lift
  | |- frames _ (if ?c then _ else _) => destruct c
  | |- frames _ (let (_, _) := ?p in _) => destruct p
  | |- frames _ (match ?x with _ => _ end) => destruct x
  end.

(** ** The positional merge, as a function on lists *)

Section Merge.

Variable article : string.

Lemma merge_rows_cons pw pa web app :
  merge_rows article (pw :: web) (pa :: app)
  = option_list (merge_pair article (pw, pa)) ++ merge_rows article web app.
Proof.
  unfold merge_rows. cbn [zip zip_with omap list_omap].
  destruct (merge_pair article (pw, pa)); reflexivity.
Qed.

Lemma merge_pair_Some p row :
  merge_pair article p = Some row ->
  fst (fst p) = fst (snd p)
  /\ row = Pageview article (JStr (fst (fst p))) (JInt (snd (fst p) + snd (snd p))).
Proof.
  unfold merge_pair. destruct (String.eqb _ _) eqn:E; [|discriminate].
  apply String.eqb_eq in E. intros [= <-]. split; [exact E | reflexivity].
Qed.

(** A merged row comes from one position of both lists, where the
    timestamps agree, and adds the two counts. *)
Lemma merge_rows_elem web app row :
  row ∈ merge_rows article web app ->
  exists i ts vw va,
    web !! i = Some (ts, vw) /\ app !! i = Some (ts, va)
    /\ row = Pageview article (JStr ts) (JInt (vw + va)).
Proof.
  unfold merge_rows. rewrite list_elem_of_omap.
  intros ([[tw vw] [ta va]] & Hin & Hm).
  apply list_elem_of_lookup in Hin as [i Hi].
  apply lookup_zip_with_Some in Hi as (x & y & Hxy & Hx & Hy).
  injection Hxy as <- <-.
  apply merge_pair_Some in Hm as [Hts ->]. cbn in Hts. subst ta.
  exists i, tw, vw, va. auto.
Qed.

Lemma merge_rows_length web app :
  length (merge_rows article web app) <= min (length web) (length app).
Proof.
  revert app. induction web as [|pw web IH]; intros [|pa app]; try (cbn; lia).
  rewrite merge_rows_cons, length_app. specialize (IH app).
  destruct (merge_pair article (pw, pa)); cbn; lia.
Qed.

(** Shifted by one against itself, a list without repeated months
    pairs no month with itself. *)
Lemma merge_rows_shifted web app t v :
  NoDup (t :: web.*1) -> app.*1 = web.*1 ->
  merge_rows article ((t, v) :: web) app = [].
Proof.
  revert app t v. induction web as [|[t' v'] web IH]; intros [|[ta va] app] t v Hnd Heq;
    try discriminate; try reflexivity.
  cbn [fmap list_fmap fst] in Heq, Hnd. injection Heq as -> Heq.
  rewrite merge_rows_cons. unfold merge_pair at 1. cbn [fst snd].
  apply NoDup_cons in Hnd as [Hnot Hnd].
  destruct (String.eqb t t') eqn:E.
  - apply String.eqb_eq in E. subst t'. exfalso. apply Hnot. left.
  - cbn [option_list List.app]. apply IH; assumption.
Qed.

(** When the second list lacks the month at position [k] of the first,
    only the months before [k] are merged. *)
Lemma merge_rows_delete web app k :
  NoDup web.*1 -> app.*1 = delete k web.*1 ->
  timestamp <$> merge_rows article web app = JStr <$> take k web.*1.
Proof.
  revert app k. induction web as [|[t v] web IH]; intros app k Hnd Heq.
  - destruct app; [|discriminate]. destruct k; reflexivity.
  - destruct k as [|k].
    + cbn [fmap list_fmap fst delete list_delete] in Heq.
      rewrite (merge_rows_shifted web app t v Hnd Heq). reflexivity.
    + destruct app as [|[ta va] app]; [discriminate|].
      cbn [fmap list_fmap fst delete list_delete] in Heq. injection Heq as -> Heq.
      rewrite merge_rows_cons. unfold merge_pair at 1. cbn [fst snd].
      rewrite String.eqb_refl, fmap_app.
      change (JStr t :: (timestamp <$> merge_rows article web app)
              = JStr t :: (JStr <$> take k web.*1)).
      f_equal. apply IH; [|exact Heq].
      cbn [fmap list_fmap fst] in Hnd. apply NoDup_cons in Hnd as [_ Hnd]. exact Hnd.
Qed.

Lemma merge_rows_timestamps_sym web app :
  timestamp <$> merge_rows article web app = timestamp <$> merge_rows article app web.
Proof.
  revert app. induction web as [|[tw vw] web IH]; intros [|[ta va] app]; try reflexivity.
  rewrite !merge_rows_cons, !fmap_app, IH. f_equal.
  unfold merge_pair. cbn [fst snd]. rewrite (String.eqb_sym ta tw).
  destruct (String.eqb tw ta) eqn:E; [|reflexivity].
  apply String.eqb_eq in E. subst ta. reflexivity.
Qed.

End Merge.

Section Loop.

Variable network : nat -> string -> outcome.

Lemma frames_request {X} (f : state -> X) title access_type endpoint_url
    endpoint_params headers :
  output_only f ->
  frames f (request_pageviews_per_article network title access_type
              endpoint_url endpoint_params headers).
Proof.
  intros Hf st. rewrite request_unfold. unfold request_normal_form.
  destruct st as [t d m c tr n]. cbn [template desktop_dict mobile_dict cumulative_dict trace attempts].
  destruct (_ !! "article") as [a|]; [|apply Hf].
  destruct (PyStr.truthy a); [|apply Hf].
  destruct (Py.format _ _); apply Hf.
Qed.

Lemma frames_has_items {X} (f : state -> X) v : frames f (has_items v).
Proof. unfold has_items. repeat frames_step. Qed.

Lemma frames_month_data {X} (f : state -> X) article r :
  frames f (month_data article r).
Proof. unfold month_data. repeat frames_step. Qed.

Lemma output_only_desktop : output_only desktop_dict.
Proof. intros ?????????. reflexivity. Qed.

Lemma output_only_mobile : output_only mobile_dict.
Proof. intros ?????????. reflexivity. Qed.

Lemma output_only_cumulative : output_only cumulative_dict.
Proof. intros ?????????. reflexivity. Qed.

Ltac frames_part :=
  repeat first
    [ frames_step
    | apply frames_has_items
    | apply frames_month_data
    | apply frames_request;
      first [apply output_only_desktop | apply output_only_mobile
            | apply output_only_cumulative]
    | (intros ?; reflexivity) ].

Lemma desktop_part_frames_mobile article :
  frames mobile_dict (desktop_part network article).
Proof. unfold desktop_part, fetch. frames_part. Qed.

Lemma desktop_part_frames_cumulative article :
  frames cumulative_dict (desktop_part network article).
Proof. unfold desktop_part, fetch. frames_part. Qed.

Lemma mobile_part_frames_desktop article :
  frames desktop_dict (mobile_part network article).
Proof. unfold mobile_part, mobile_pair, fetch. frames_part. Qed.

Lemma mobile_part_frames_cumulative article :
  frames cumulative_dict (mobile_part network article).
Proof. unfold mobile_part, mobile_pair, fetch. frames_part. Qed.

Lemma all_access_part_frames_desktop article :
  frames desktop_dict (all_access_part network article).
Proof. unfold all_access_part, fetch. frames_part. Qed.

Lemma all_access_part_frames_mobile article :
  frames mobile_dict (all_access_part network article).
Proof. unfold all_access_part, fetch. frames_part. Qed.

(** *** The membership test and the inner loops *)

Lemma has_items_no v st : no_items v -> has_items v st = (Ok false, st).
Proof.
  intros [-> | (d & -> & Hd)]; [reflexivity|].
  unfold has_items. destruct (Py.truthy (JDict d)); [|reflexivity].
  unfold lift, Py.contains. rewrite Hd. reflexivity.
Qed.

Lemma has_items_yes d x st :
  Py.dict_get "items" d = Some x -> has_items (JDict d) st = (Ok true, st).
Proof.
  intros Hd. unfold has_items.
  destruct d as [|kv d']; [discriminate|]. cbn [Py.truthy].
  unfold lift, Py.contains. rewrite Hd. reflexivity.
Qed.

Lemma has_items_object v st :
  null_or_object v -> exists b, has_items v st = (Ok b, st).
Proof.
  intros [-> | (d & ->)]; [eexists; reflexivity|].
  unfold has_items. destruct (Py.truthy (JDict d)); eexists; reflexivity.
Qed.

Lemma as_month_fields r ts n :
  as_month r = Some (ts, n) ->
  Py.getitem r "timestamp" = Ok (JStr ts) /\ Py.getitem r "views" = Ok (JInt n).
Proof.
  unfold as_month, Py.getitem. destruct r as [| | | | |d]; try discriminate.
  destruct (Py.dict_get "timestamp" d) as [[]|]; try discriminate.
  destruct (Py.dict_get "views" d) as [[]|]; try discriminate.
  intros [= -> ->]. split; reflexivity.
Qed.

Lemma as_month_row article r p :
  as_month r = Some p -> row_of article r (month_row article p).
Proof.
  destruct p as [ts n]. intros H. apply as_month_fields in H as [H1 H2].
  split; [reflexivity|]. split; assumption.
Qed.

Lemma month_data_row article r row st :
  row_of article r row -> month_data article r st = (Ok row, st).
Proof.
  destruct row as [a t v]. intros (Ha & Ht & Hv). cbn in Ha, Ht, Hv. subst a.
  unfold month_data, bind, lift, ret. rewrite Ht, Hv. reflexivity.
Qed.

Lemma for_each_desktop article items rows st :
  Forall2 (row_of article) items rows ->
  for_each (fun month_record =>
              desktop_month_data <- month_data article month_record ;;
              desktop_append desktop_month_data) items st
  = (Ok tt, State (template st) (desktop_dict st ++ rows) (mobile_dict st)
                  (cumulative_dict st) (trace st) (attempts st)).
Proof.
  intros H. revert st. induction H as [|r row items rows Hr _ IH]; intros st.
  - cbn. rewrite app_nil_r. destruct st; reflexivity.
  - cbn [for_each].
    rewrite (bind_Ok _ _ st tt (State (template st) (desktop_dict st ++ [row])
               (mobile_dict st) (cumulative_dict st) (trace st) (attempts st))).
    + rewrite IH. cbn. rewrite <- app_assoc. reflexivity.
    + rewrite (bind_Ok _ _ _ _ _ (month_data_row article r row st Hr)). reflexivity.
Qed.

Lemma for_each_cumulative article items rows st :
  Forall2 (row_of article) items rows ->
  for_each (fun cumulative_month =>
              cumulative_month_data <- month_data article cumulative_month ;;
              cumulative_append cumulative_month_data) items st
  = (Ok tt, State (template st) (desktop_dict st) (mobile_dict st)
                  (cumulative_dict st ++ rows) (trace st) (attempts st)).
Proof.
  intros H. revert st. induction H as [|r row items rows Hr _ IH]; intros st.
  - cbn. rewrite app_nil_r. destruct st; reflexivity.
  - cbn [for_each].
    rewrite (bind_Ok _ _ st tt (State (template st) (desktop_dict st) (mobile_dict st)
               (cumulative_dict st ++ [row]) (trace st) (attempts st))).
    + rewrite IH. cbn. rewrite <- app_assoc. reflexivity.
    + rewrite (bind_Ok _ _ _ _ _ (month_data_row article r row st Hr)). reflexivity.
Qed.

Lemma mobile_pair_months article w a pw pa st :
  as_month w = Some pw -> as_month a = Some pa ->
  mobile_pair article (w, a) st
  = (Ok tt, State (template st) (desktop_dict st)
                  (mobile_dict st ++ option_list (merge_pair article (pw, pa)))
                  (cumulative_dict st) (trace st) (attempts st)).
Proof.
  destruct pw as [tw vw], pa as [ta va]. intros Hw Ha.
  apply as_month_fields in Hw as [Hw1 Hw2]. apply as_month_fields in Ha as [Ha1 Ha2].
  unfold mobile_pair, bind, lift, ret, merge_pair. rewrite Hw1, Ha1.
  cbn [Py.eq fst snd]. destruct (String.eqb tw ta).
  - rewrite Hw2, Ha2. reflexivity.
  - cbn. rewrite app_nil_r. destruct st; reflexivity.
Qed.

Lemma for_each_mobile article ws aps wl al st :
  Forall2 (fun r p => as_month r = Some p) ws wl ->
  Forall2 (fun r p => as_month r = Some p) aps al ->
  for_each (mobile_pair article) (zip ws aps) st
  = (Ok tt, State (template st) (desktop_dict st)
                  (mobile_dict st ++ merge_rows article wl al)
                  (cumulative_dict st) (trace st) (attempts st)).
Proof.
  intros Hw. revert aps al st.
  induction Hw as [|w pw ws wl Hw _ IH]; intros aps al st Ha.
  - cbn. rewrite app_nil_r. destruct st; reflexivity.
  - destruct Ha as [|a pa aps al Ha Has].
    + cbn. rewrite app_nil_r. destruct st; reflexivity.
    + cbn [zip zip_with for_each].
      rewrite (bind_Ok _ _ _ _ _ (mobile_pair_months article w a pw pa st Hw Ha)).
      rewrite (IH _ _ _ Has). cbn [template desktop_dict mobile_dict cumulative_dict trace attempts].
      unfold merge_rows. cbn [zip zip_with omap list_omap].
      rewrite <- app_assoc. 
      destruct (merge_pair article (pw, pa)); reflexivity.
Qed.

(** *** The three parts of a turn *)

Lemma rows_exist article items :
  Forall has_month_fields items ->
  exists rows, Forall2 (row_of article) items rows.
Proof.
  induction 1 as [|r items [[t Ht] [v Hv]] _ [rows IH]].
  - exists []. constructor.
  - exists (Pageview article t v :: rows). constructor; [|exact IH].
    split; [reflexivity|]. split; assumption.
Qed.

Lemma frames_snd {A X} (f : state -> X) (m : M A) st r st' :
  frames f m -> m st = (r, st') -> f st' = f st.
Proof. intros Hf Hm. specialize (Hf st). rewrite Hm in Hf. exact Hf. Qed.

Lemma desktop_part_items article d items rows st s1 :
  fetch network article "desktop" st = (Ok (JDict d), s1) ->
  Py.dict_get "items" d = Some (JList items) ->
  Forall2 (row_of article) items rows ->
  desktop_part network article st
  = (Ok tt, State (template s1) (desktop_dict s1 ++ rows) (mobile_dict s1)
                  (cumulative_dict s1) (trace s1) (attempts s1)).
Proof.
  intros Hf Hd Hrows. unfold desktop_part.
  rewrite (bind_Ok _ _ _ _ _ Hf).
  rewrite (bind_Ok _ _ _ _ _ (has_items_yes d _ s1 Hd)).
  unfold bind at 1, lift, Py.getitem. rewrite Hd.
  unfold bind at 1. cbn [Py.iter].
  apply for_each_desktop, Hrows.
Qed.

Lemma mobile_part_items article dw da ws aps wl al st s1 s2 :
  fetch network article "mobile-web" st = (Ok (JDict dw), s1) ->
  fetch network article "mobile-app" s1 = (Ok (JDict da), s2) ->
  Py.dict_get "items" dw = Some (JList ws) ->
  Py.dict_get "items" da = Some (JList aps) ->
  Forall2 (fun r p => as_month r = Some p) ws wl ->
  Forall2 (fun r p => as_month r = Some p) aps al ->
  mobile_part network article st
  = (Ok tt, State (template s2) (desktop_dict s2)
                  (mobile_dict s2 ++ merge_rows article wl al)
                  (cumulative_dict s2) (trace s2) (attempts s2)).
Proof.
  intros Hw Ha Hdw Hda Hws Has. unfold mobile_part.
  rewrite (bind_Ok _ _ _ _ _ Hw), (bind_Ok _ _ _ _ _ Ha).
  rewrite (bind_Ok _ _ _ _ _ (has_items_yes dw _ s2 Hdw)).
  rewrite (bind_Ok _ _ _ _ _ (has_items_yes da _ s2 Hda)).
  unfold bind at 1, lift, Py.getitem. rewrite Hdw.
  unfold bind at 1. rewrite Hda.
  unfold bind at 1. cbn [Py.iter]. unfold bind at 1.
  apply for_each_mobile; assumption.
Qed.

Lemma all_access_part_items article d items rows st s1 :
  fetch network article "all-access" st = (Ok (JDict d), s1) ->
  Py.dict_get "items" d = Some (JList items) ->
  Forall2 (row_of article) items rows ->
  all_access_part network article st
  = (Ok tt, State (template s1) (desktop_dict s1) (mobile_dict s1)
                  (cumulative_dict s1 ++ rows) (trace s1) (attempts s1)).
Proof.
  intros Hf Hd Hrows. unfold all_access_part.
  rewrite (bind_Ok _ _ _ _ _ Hf).
  rewrite (bind_Ok _ _ _ _ _ (has_items_yes d _ s1 Hd)).
  unfold bind at 1, lift, Py.getitem. rewrite Hd.
  unfold bind at 1. cbn [Py.iter].
  apply for_each_cumulative, Hrows.
Qed.

Lemma fetch_frames_desktop article access_type :
  frames desktop_dict (fetch network article access_type).
Proof. apply frames_request, output_only_desktop. Qed.

Lemma fetch_frames_mobile article access_type :
  frames mobile_dict (fetch network article access_type).
Proof. apply frames_request, output_only_mobile. Qed.

Lemma fetch_frames_cumulative article access_type :
  frames cumulative_dict (fetch network article access_type).
Proof. apply frames_request, output_only_cumulative. Qed.

(** C5: when the desktop response of a turn is an object whose
    ['items'] is a list of N records with a timestamp and views, the
    turn adds exactly N rows to the desktop list, the i-th with the
    title as given (not the encoded one) and the i-th item's timestamp
    and views, whatever the rest of the turn does. *)
Theorem desktop_rows_appended (article : string) (d : list (string * json))
    (items : list json) (st s1 : state) :
  fetch network article "desktop" st = (Ok (JDict d), s1) ->
  Py.dict_get "items" d = Some (JList items) ->
  Forall has_month_fields items ->
  exists rows,
    desktop_dict (snd (loop_body network article st)) = desktop_dict st ++ rows
    /\ length rows = length items
    /\ Forall2 (row_of article) items rows.
Proof.
  intros Hf Hd Hitems.
  destruct (rows_exist article items Hitems) as [rows Hrows].
  exists rows. split; [|split; [symmetry; eapply Forall2_length, Hrows | exact Hrows]].
  unfold loop_body.
  rewrite (bind_Ok _ _ _ _ _ (desktop_part_items _ _ _ _ _ _ Hf Hd Hrows)).
  match goal with
  | |- desktop_dict (snd (?m ?s)) = _ =>
      assert (Hfr : frames desktop_dict m)
  end.
  { apply frames_bind; [apply mobile_part_frames_desktop|].
    intros _. apply all_access_part_frames_desktop. }
  rewrite Hfr. cbn [desktop_dict].
  rewrite (frames_snd _ _ _ _ _ (fetch_frames_desktop article "desktop") Hf).
  reflexivity.
Qed.

Lemma mobile_after_turn article dw da ws aps wl al st s0 s1 s2 :
  desktop_part network article st = (Ok tt, s0) ->
  fetch network article "mobile-web" s0 = (Ok (JDict dw), s1) ->
  fetch network article "mobile-app" s1 = (Ok (JDict da), s2) ->
  Py.dict_get "items" dw = Some (JList ws) ->
  Py.dict_get "items" da = Some (JList aps) ->
  Forall2 (fun r p => as_month r = Some p) ws wl ->
  Forall2 (fun r p => as_month r = Some p) aps al ->
  mobile_dict (snd (loop_body network article st))
  = mobile_dict st ++ merge_rows article wl al.
Proof.
  intros Hd Hw Ha Hdw Hda Hws Has. unfold loop_body.
  rewrite (bind_Ok _ _ _ _ _ Hd).
  rewrite (bind_Ok _ _ _ _ _
             (mobile_part_items _ _ _ _ _ _ _ _ _ _ Hw Ha Hdw Hda Hws Has)).
  rewrite all_access_part_frames_mobile. cbn [mobile_dict].
  rewrite (frames_snd _ _ _ _ _ (fetch_frames_mobile article "mobile-app") Ha).
  rewrite (frames_snd _ _ _ _ _ (fetch_frames_mobile article "mobile-web") Hw).
  rewrite (frames_snd _ _ _ _ _ (desktop_part_frames_mobile article) Hd).
  reflexivity.
Qed.

(** C2: when both mobile responses of a turn carry an ['items'] list of
    monthly records, every row the turn adds to the mobile list has a
    timestamp that both lists hold (at one position), and its views
    are the mobile-web views plus the mobile-app views recorded there;
    so a timestamp that only one of the two lists holds gets no row. *)
Theorem mobile_rows_sum_matching (article : string) (dw da : list (string * json))
    (ws aps : list json) (wl al : list (string * Z)) (st s0 s1 s2 : state) :
  desktop_part network article st = (Ok tt, s0) ->
  fetch network article "mobile-web" s0 = (Ok (JDict dw), s1) ->
  fetch network article "mobile-app" s1 = (Ok (JDict da), s2) ->
  Py.dict_get "items" dw = Some (JList ws) ->
  Py.dict_get "items" da = Some (JList aps) ->
  Forall2 (fun r p => as_month r = Some p) ws wl ->
  Forall2 (fun r p => as_month r = Some p) aps al ->
  exists rows,
    mobile_dict (snd (loop_body network article st)) = mobile_dict st ++ rows
    /\ (forall row, row ∈ rows ->
        exists i ts vw va,
          wl !! i = Some (ts, vw) /\ al !! i = Some (ts, va)
          /\ article_title row = article
          /\ timestamp row = JStr ts
          /\ views row = JInt (vw + va))
    /\ (forall ts,
          ((ts ∈ wl.*1) /\ (ts ∉ al.*1)) \/ ((ts ∉ wl.*1) /\ (ts ∈ al.*1)) ->
          forall row, row ∈ rows -> timestamp row <> JStr ts).
Proof.
  intros Hd Hw Ha Hdw Hda Hws Has.
  exists (merge_rows article wl al).
  split; [eapply mobile_after_turn; eassumption|].
  split.
  - intros row Hrow.
    apply merge_rows_elem in Hrow as (i & ts & vw & va & Hi & Hj & ->).
    exists i, ts, vw, va. auto.
  - intros ts Hone row Hrow.
    apply merge_rows_elem in Hrow as (i & ts' & vw & va & Hi & Hj & ->).
    cbn [timestamp]. intros [= ->].
    assert (ts ∈ wl.*1)
      by (apply list_elem_of_fmap; exists (ts, vw); split;
          [reflexivity | eapply list_elem_of_lookup_2, Hi]).
    assert (ts ∈ al.*1)
      by (apply list_elem_of_fmap; exists (ts, va); split;
          [reflexivity | eapply list_elem_of_lookup_2, Hj]).
    tauto.
Qed.

Lemma later_months_dropped (l : list string) k ts :
  NoDup l -> ts ∈ drop (S k) l ->
  ts ∈ l /\ ts ∈ delete k l /\ ts ∉ take k l.
Proof.
  intros Hnd Hin.
  assert (Hk : ts ∈ drop k l).
  { apply list_elem_of_lookup in Hin as [i Hi]. rewrite lookup_drop in Hi.
    apply list_elem_of_lookup. exists (S i). rewrite lookup_drop.
    replace (k + S i) with (S k + i) by lia. exact Hi. }
  split; [|split].
  - rewrite <- (take_drop k l). apply elem_of_app. right. exact Hk.
  - rewrite delete_take_drop. apply elem_of_app. right. exact Hin.
  - rewrite <- (take_drop k l) in Hnd. apply NoDup_app in Hnd as (_ & Hdis & _).
    intros Htake. exact (Hdis ts Htake Hk).
Qed.

(** C10: the rows a turn adds to the mobile list are at most as many as
    the shorter of the two ['items'] lists, and each has the timestamp
    found at one and the same position of both.  So when the
    mobile-app list lacks the month at position [k] of the mobile-web
    list (or the other way round), only the months before [k] get a
    row: every later month is in both lists and still gets none. *)
Theorem mobile_rows_positional (article : string) (dw da : list (string * json))
    (ws aps : list json) (wl al : list (string * Z)) (st s0 s1 s2 : state) :
  desktop_part network article st = (Ok tt, s0) ->
  fetch network article "mobile-web" s0 = (Ok (JDict dw), s1) ->
  fetch network article "mobile-app" s1 = (Ok (JDict da), s2) ->
  Py.dict_get "items" dw = Some (JList ws) ->
  Py.dict_get "items" da = Some (JList aps) ->
  Forall2 (fun r p => as_month r = Some p) ws wl ->
  Forall2 (fun r p => as_month r = Some p) aps al ->
  exists rows,
    mobile_dict (snd (loop_body network article st)) = mobile_dict st ++ rows
    /\ length rows <= min (length ws) (length aps)
    /\ (forall row, row ∈ rows ->
        exists i w a,
          ws !! i = Some w /\ aps !! i = Some a
          /\ Py.getitem w "timestamp" = Ok (timestamp row)
          /\ Py.getitem a "timestamp" = Ok (timestamp row))
    /\ (forall k,
          (NoDup wl.*1 /\ al.*1 = delete k wl.*1 ->
           timestamp <$> rows = JStr <$> take k wl.*1
           /\ forall ts, ts ∈ drop (S k) wl.*1 ->
                ts ∈ wl.*1 /\ ts ∈ al.*1 /\ JStr ts ∉ (timestamp <$> rows))
          /\
          (NoDup al.*1 /\ wl.*1 = delete k al.*1 ->
           timestamp <$> rows = JStr <$> take k al.*1
           /\ forall ts, ts ∈ drop (S k) al.*1 ->
                ts ∈ wl.*1 /\ ts ∈ al.*1 /\ JStr ts ∉ (timestamp <$> rows))).
Proof.
  intros Hd Hw Ha Hdw Hda Hws Has.
  exists (merge_rows article wl al).
  split; [eapply mobile_after_turn; eassumption|].
  split.
  { rewrite (Forall2_length _ _ _ Hws), (Forall2_length _ _ _ Has).
    apply merge_rows_length. }
  split.
  { intros row Hrow.
    apply merge_rows_elem in Hrow as (i & ts & vw & va & Hi & Hj & ->).
    destruct (Forall2_lookup_r _ _ _ _ _ Hws Hi) as (w & Hwi & Hwm).
    destruct (Forall2_lookup_r _ _ _ _ _ Has Hj) as (a & Hai & Ham).
    apply as_month_fields in Hwm as [Hwt _]. apply as_month_fields in Ham as [Hat _].
    exists i, w, a. auto. }
  assert (Hinj : forall (l : list string) ts, JStr ts ∈ (JStr <$> l) -> ts ∈ l).
  { intros l ts Hin. apply list_elem_of_fmap in Hin as (y & [= ->] & Hy). exact Hy. }
  intros k. split; intros [Hnd Heq].
  - pose proof (merge_rows_delete article wl al k Hnd Heq) as Hts.
    split; [exact Hts|]. intros ts Hin.
    destruct (later_months_dropped _ _ _ Hnd Hin) as (H1 & H2 & H3).
    rewrite Heq, Hts. split; [exact H1|]. split; [exact H2|].
    intros Hbad. apply H3, Hinj, Hbad.
  - pose proof (merge_rows_delete article al wl k Hnd Heq) as Hts.
    rewrite <- merge_rows_timestamps_sym in Hts.
    split; [exact Hts|]. intros ts Hin.
    destruct (later_months_dropped _ _ _ Hnd Hin) as (H1 & H2 & H3).
    rewrite Heq, Hts. split; [exact H2|]. split; [exact H1|].
    intros Hbad. apply H3, Hinj, Hbad.
Qed.

Lemma bind_assoc {A B C} (m : M A) (k : A -> M B) (h : B -> M C) st :
  bind (bind m k) h st = bind m (fun a => bind (k a) h) st.
Proof. unfold bind. destruct (m st) as [[a|e] st1]; reflexivity. Qed.

Lemma turn_after_desktop article rest st s0 :
  desktop_part network article st = (Ok tt, s0) ->
  for_each (loop_body network) (article :: rest) st
  = (mobile_part network article ;;
     all_access_part network article ;;
     for_each (loop_body network) rest) s0.
Proof.
  intros Hd. cbn [for_each]. unfold loop_body.
  rewrite bind_assoc, (bind_Ok _ _ _ _ _ Hd).
  rewrite bind_assoc. reflexivity.
Qed.

Lemma turn_after_mobile article rest st s0 s1 :
  desktop_part network article st = (Ok tt, s0) ->
  mobile_part network article s0 = (Ok tt, s1) ->
  for_each (loop_body network) (article :: rest) st
  = (all_access_part network article ;; for_each (loop_body network) rest) s1.
Proof.
  intros Hd Hm. rewrite (turn_after_desktop _ _ _ _ Hd).
  rewrite (bind_Ok _ _ _ _ _ Hm). reflexivity.
Qed.

Lemma desktop_part_no_items article v st s1 :
  fetch network article "desktop" st = (Ok v, s1) ->
  no_items v ->
  desktop_part network article st
  = (Ok tt, with_print s1 ("No desktop data found for " +:+ article)).
Proof.
  intros Hf Hv. unfold desktop_part.
  rewrite (bind_Ok _ _ _ _ _ Hf), (bind_Ok _ _ _ _ _ (has_items_no v s1 Hv)).
  reflexivity.
Qed.

Lemma mobile_part_no_items article v r st s1 s2 :
  fetch network article "mobile-web" st = (Ok v, s1) ->
  fetch network article "mobile-app" s1 = (Ok r, s2) ->
  no_items v \/ (null_or_object v /\ no_items r) ->
  mobile_part network article st
  = (Ok tt, with_print s2 ("No mobile-web or mobile-app data found for " +:+ article)).
Proof.
  intros Hw Ha Hv. unfold mobile_part.
  rewrite (bind_Ok _ _ _ _ _ Hw), (bind_Ok _ _ _ _ _ Ha).
  destruct Hv as [Hv | [Hv Hr]].
  - rewrite (bind_Ok _ _ _ _ _ (has_items_no v s2 Hv)). reflexivity.
  - destruct (has_items_object v s2 Hv) as [b Hb].
    rewrite (bind_Ok _ _ _ _ _ Hb). destruct b; [|reflexivity].
    rewrite (bind_Ok _ _ _ _ _ (has_items_no r s2 Hr)). reflexivity.
Qed.

Lemma all_access_part_no_items article v st s1 :
  fetch network article "all-access" st = (Ok v, s1) ->
  no_items v ->
  all_access_part network article st
  = (Ok tt, with_print s1 ("No all-access data found for " +:+ article)).
Proof.
  intros Hf Hv. unfold all_access_part.
  rewrite (bind_Ok _ _ _ _ _ Hf), (bind_Ok _ _ _ _ _ (has_items_no v s1 Hv)).
  reflexivity.
Qed.

(** C4: in the turn of [article] that starts in [st], when the fetch for
    an access type returns [None] or an object without ['items'], the
    list of that access type is as it was before the fetch, the state
    differs from the one the fetch left by one printed notice, and the
    run goes on with the remaining access types of the article and then
    with the remaining articles.  For mobile-app the mobile-web response
    is taken to be [None] or an object. *)
Theorem no_data_is_skipped (article : string) (rest : list string) (st : state) :
  (forall v s1,
      fetch network article "desktop" st = (Ok v, s1) ->
      no_items v ->
      let s' := with_print s1 ("No desktop data found for " +:+ article) in
      desktop_dict s' = desktop_dict st
      /\ for_each (loop_body network) (article :: rest) st
         = (mobile_part network article ;;
            all_access_part network article ;;
            for_each (loop_body network) rest) s')
  /\ (forall s0 v r s1 s2,
      desktop_part network article st = (Ok tt, s0) ->
      fetch network article "mobile-web" s0 = (Ok v, s1) ->
      fetch network article "mobile-app" s1 = (Ok r, s2) ->
      no_items v \/ (null_or_object v /\ no_items r) ->
      let s' := with_print s2 ("No mobile-web or mobile-app data found for " +:+ article) in
      mobile_dict s' = mobile_dict s0
      /\ for_each (loop_body network) (article :: rest) st
         = (all_access_part network article ;; for_each (loop_body network) rest) s')
  /\ (forall s0 s1 v s2,
      desktop_part network article st = (Ok tt, s0) ->
      mobile_part network article s0 = (Ok tt, s1) ->
      fetch network article "all-access" s1 = (Ok v, s2) ->
      no_items v ->
      let s' := with_print s2 ("No all-access data found for " +:+ article) in
      cumulative_dict s' = cumulative_dict s1
      /\ for_each (loop_body network) (article :: rest) st
         = for_each (loop_body network) rest s').
Proof.
  split; [|split].
  - intros v s1 Hf Hv s'. split.
    + exact (frames_snd _ _ _ _ _ (fetch_frames_desktop article "desktop") Hf).
    + apply turn_after_desktop. eapply desktop_part_no_items; eassumption.
  - intros s0 v r s1 s2 Hd Hw Ha Hv s'. split.
    + cbn [s' with_print mobile_dict].
      rewrite (frames_snd _ _ _ _ _ (fetch_frames_mobile article "mobile-app") Ha).
      exact (frames_snd _ _ _ _ _ (fetch_frames_mobile article "mobile-web") Hw).
    + eapply turn_after_mobile; [exact Hd|].
      eapply mobile_part_no_items; eassumption.
  - intros s0 s1 v s2 Hd Hm Hf Hv s'. split.
    + exact (frames_snd _ _ _ _ _ (fetch_frames_cumulative article "all-access") Hf).
    + rewrite (turn_after_mobile _ _ _ _ _ Hd Hm).
      rewrite (bind_Ok _ _ _ _ _ (all_access_part_no_items _ _ _ _ Hf Hv)).
      reflexivity.
Qed.

(** *** The calls of a run *)

Lemma calls_attempt_events o url headers : calls (attempt_events o url headers) = [].
Proof. destruct o; reflexivity. Qed.

Lemma calls_request title access_type endpoint_url endpoint_params headers st :
  calls_made (snd (request_pageviews_per_article network title access_type
                     endpoint_url endpoint_params headers st))
  = calls_made st ++ [(title, access_type)].
Proof.
  rewrite request_unfold. unfold request_normal_form, calls_made.
  destruct (_ !! "article") as [a|]; [|cbn; rewrite calls_app; reflexivity].
  destruct (PyStr.truthy a); [|cbn; rewrite calls_app; reflexivity].
  destruct (Py.format _ _); cbn; rewrite !calls_app; [|reflexivity].
  rewrite calls_attempt_events, app_nil_r. reflexivity.
Qed.

Lemma calls_print line : frames calls_made (print line).
Proof.
  intros st. unfold calls_made. cbn. rewrite calls_app. cbn. apply app_nil_r.
Qed.

Ltac frames_calls :=
  repeat first
    [ frames_step
    | apply frames_has_items
    | apply frames_month_data
    | apply calls_print
    | (intros ?; reflexivity) ].

(** After the fetch, the rest of a part makes no call. *)
Lemma after_bind {A B X} (f : state -> X) (m : M A) (k : A -> M B) st :
  (forall a, frames f (k a)) -> f (snd (bind m k st)) = f (snd (m st)).
Proof.
  intros Hk. unfold bind. destruct (m st) as [[a|e] s1]; [apply Hk | reflexivity].
Qed.

Lemma desktop_part_calls article st :
  calls_made (snd (desktop_part network article st))
  = calls_made st ++ [(Some article, "desktop")].
Proof.
  unfold desktop_part. rewrite after_bind; [apply calls_request|].
  intros v. frames_calls.
Qed.

Lemma all_access_part_calls article st :
  calls_made (snd (all_access_part network article st))
  = calls_made st ++ [(Some article, "all-access")].
Proof.
  unfold all_access_part. rewrite after_bind; [apply calls_request|].
  intros v. frames_calls.
Qed.

Lemma mobile_part_calls article st :
  let run := mobile_part network article st in
  (calls_made (snd run) = calls_made st ++ [(Some article, "mobile-web")]
   /\ exists e, fst run = Raise e)
  \/ calls_made (snd run)
     = calls_made st ++ [(Some article, "mobile-web"); (Some article, "mobile-app")].
Proof.
  cbn zeta. unfold mobile_part.
  pose proof (calls_request (Some article) "mobile-web" API_REQUEST_PAGEVIEWS_ENDPOINT
                API_REQUEST_PER_ARTICLE_PARAMS REQUEST_HEADERS st) as H1.
  fold (fetch network article "mobile-web") in H1.
  destruct (fetch network article "mobile-web" st) as [[v|e] s1] eqn:Hf; cbn [snd] in H1.
  - right. rewrite (bind_Ok _ _ _ _ _ Hf).
    rewrite after_bind by (intros r; unfold mobile_pair; frames_calls).
    unfold fetch at 1. rewrite calls_request, H1, <- app_assoc. reflexivity.
  - left. rewrite (bind_Raise _ _ _ _ _ Hf). split; [exact H1|]. eexists. reflexivity.
Qed.

Lemma loop_body_calls article st :
  let run := loop_body network article st in
  exists made,
    calls_made (snd run) = calls_made st ++ made
    /\ made `prefix_of` turn_calls article
    /\ (fst run = Ok tt -> made = turn_calls article).
Proof.
  cbn zeta. unfold loop_body.
  pose proof (desktop_part_calls article st) as Hd.
  destruct (desktop_part network article st) as [[[]|e] s0] eqn:Ed; cbn [snd] in Hd.
  2:{ rewrite (bind_Raise _ _ _ _ _ Ed). exists [(Some article, "desktop")].
      split; [exact Hd|]. split; [eexists; reflexivity | discriminate]. }
  rewrite (bind_Ok _ _ _ _ _ Ed).
  pose proof (mobile_part_calls article s0) as Hm. cbn zeta in Hm.
  destruct (mobile_part network article s0) as [[[]|e] s1] eqn:Em; cbn [fst snd] in Hm.
  2:{ rewrite (bind_Raise _ _ _ _ _ Em). cbn [fst snd].
      destruct Hm as [[Hm _] | Hm]; rewrite Hm, Hd, <- app_assoc;
        eexists; (split; [reflexivity|]); (split; [eexists; reflexivity | discriminate]). }
  destruct Hm as [[_ [e He]] | Hm]; [discriminate|].
  rewrite (bind_Ok _ _ _ _ _ Em).
  rewrite all_access_part_calls, Hm, Hd, <- !app_assoc.
  exists (turn_calls article). split; [reflexivity|]. split; [reflexivity | auto].
Qed.

Lemma for_each_calls titles st :
  let run := for_each (loop_body network) titles st in
  exists made,
    calls_made (snd run) = calls_made st ++ made
    /\ made `prefix_of` concat (turn_calls <$> titles)
    /\ (fst run = Ok tt -> made = concat (turn_calls <$> titles)).
Proof.
  cbn zeta. revert st. induction titles as [|a titles IH]; intros st.
  - exists []. cbn. rewrite app_nil_r. auto.
  - cbn [for_each fmap list_fmap concat].
    destruct (loop_body_calls a st) as (made1 & H1 & Hp1 & Hok1).
    destruct (loop_body network a st) as [[[]|e] s1] eqn:E; cbn [fst snd] in H1, Hok1.
    + rewrite (bind_Ok _ _ _ _ _ E). rewrite (Hok1 eq_refl) in H1.
      destruct (IH s1) as (made2 & H2 & Hp2 & Hok2).
      exists (turn_calls a ++ made2). rewrite H2, H1, <- app_assoc.
      split; [reflexivity|]. split.
      * apply prefix_app, Hp2.
      * intros Hok. rewrite (Hok2 Hok). reflexivity.
    + rewrite (bind_Raise _ _ _ _ _ E). exists made1. cbn [fst snd].
      split; [exact H1|]. split; [apply prefix_app_r, Hp1 | discriminate].
Qed.

(** *** Runs over well-formed responses *)

Lemma well_formed_cases v :
  well_formed v = true ->
  no_items v
  \/ exists d l ps,
      v = JDict d /\ Py.dict_get "items" d = Some (JList l)
      /\ Forall2 (fun r p => as_month r = Some p) l ps.
Proof.
  destruct v as [| | | | |d]; try discriminate; [left; left; reflexivity|].
  cbn [well_formed]. destruct (Py.dict_get "items" d) as [[| | | |l|]|] eqn:Hd;
    try discriminate.
  - intros Hl. right. exists d, l.
    assert (exists ps, Forall2 (fun r p => as_month r = Some p) l ps) as [ps Hps].
    { clear Hd. induction l as [|r l IH]; [exists []; constructor|].
      cbn [forallb] in Hl. apply andb_prop in Hl as [Hr Hl].
      destruct (IH Hl) as [ps Hps]. unfold is_month in Hr.
      destruct (as_month r) as [p|] eqn:Ep; [|discriminate].
      exists (p :: ps). constructor; assumption. }
    exists ps. auto.
  - intros _. left. right. exists d. auto.
Qed.

Lemma months_rows article l ps :
  Forall2 (fun r p => as_month r = Some p) l ps ->
  Forall2 (row_of article) l (month_row article <$> ps).
Proof.
  induction 1; constructor; [apply as_month_row; assumption | assumption].
Qed.

Lemma no_items_object v : no_items v -> null_or_object v.
Proof. intros [-> | (d & -> & _)]; [left | right; eexists]; reflexivity. Qed.

Lemma fetch_returns article access_type st :
  article <> "" ->
  template_ok (template st) ->
  exists o s1,
    fetch network article access_type st = (Ok (attempt_value o), s1)
    /\ (exists u, o = network (attempts st) u)
    /\ template_ok (template s1).
Proof.
  intros Hne Hok. unfold fetch.
  rewrite (request_ok network (Some article) access_type _ _ st article Hok
             (effective_some article _ Hne) Hne).
  eexists _, _. split; [reflexivity|]. split; [eexists; reflexivity|].
  cbn [template]. do 2 apply template_ok_insert. exact Hok.
Qed.

Lemma desktop_part_well_formed article v st s1 :
  fetch network article "desktop" st = (Ok v, s1) ->
  well_formed v = true ->
  exists s', desktop_part network article st = (Ok tt, s') /\ template s' = template s1.
Proof.
  intros Hf Hv. destruct (well_formed_cases v Hv) as [Hn | (d & l & ps & -> & Hd & Hl)].
  - rewrite (desktop_part_no_items _ _ _ _ Hf Hn). eexists. split; reflexivity.
  - rewrite (desktop_part_items _ _ _ _ _ _ Hf Hd (months_rows article _ _ Hl)).
    eexists. split; reflexivity.
Qed.

Lemma all_access_part_well_formed article v st s1 :
  fetch network article "all-access" st = (Ok v, s1) ->
  well_formed v = true ->
  exists s', all_access_part network article st = (Ok tt, s') /\ template s' = template s1.
Proof.
  intros Hf Hv. destruct (well_formed_cases v Hv) as [Hn | (d & l & ps & -> & Hd & Hl)].
  - rewrite (all_access_part_no_items _ _ _ _ Hf Hn). eexists. split; reflexivity.
  - rewrite (all_access_part_items _ _ _ _ _ _ Hf Hd (months_rows article _ _ Hl)).
    eexists. split; reflexivity.
Qed.

Lemma mobile_part_well_formed article v r st s1 s2 :
  fetch network article "mobile-web" st = (Ok v, s1) ->
  fetch network article "mobile-app" s1 = (Ok r, s2) ->
  well_formed v = true -> well_formed r = true ->
  exists s', mobile_part network article st = (Ok tt, s') /\ template s' = template s2.
Proof.
  intros Hw Ha Hv Hr.
  destruct (well_formed_cases v Hv) as [Hn | (dw & ws & wl & -> & Hdw & Hws)].
  { rewrite (mobile_part_no_items _ _ _ _ _ _ Hw Ha (or_introl Hn)).
    eexists. split; reflexivity. }
  destruct (well_formed_cases r Hr) as [Hn | (da & aps & al & -> & Hda & Has)].
  { assert (Hobj : null_or_object (JDict dw)) by (right; eexists; reflexivity).
    rewrite (mobile_part_no_items _ _ _ _ _ _ Hw Ha (or_intror (conj Hobj Hn))).
    eexists. split; reflexivity. }
  rewrite (mobile_part_items _ _ _ _ _ _ _ _ _ _ Hw Ha Hdw Hda Hws Has).
  eexists. split; reflexivity.
Qed.

Lemma loop_body_well_formed article st :
  article <> "" ->
  template_ok (template st) ->
  (forall n u, well_formed (attempt_value (network n u)) = true) ->
  exists s', loop_body network article st = (Ok tt, s') /\ template_ok (template s').
Proof.
  intros Hne Hok Hwf. unfold loop_body.
  destruct (fetch_returns article "desktop" st Hne Hok) as (o1 & s1 & Hf1 & [u1 ->] & Hok1).
  destruct (desktop_part_well_formed _ _ _ _ Hf1 (Hwf _ _)) as (s1' & Hd & Ht1).
  rewrite (bind_Ok _ _ _ _ _ Hd). rewrite <- Ht1 in Hok1.
  destruct (fetch_returns article "mobile-web" s1' Hne Hok1) as (o2 & s2 & Hf2 & [u2 ->] & Hok2).
  destruct (fetch_returns article "mobile-app" s2 Hne Hok2) as (o3 & s3 & Hf3 & [u3 ->] & Hok3).
  destruct (mobile_part_well_formed _ _ _ _ _ _ Hf2 Hf3 (Hwf _ _) (Hwf _ _)) as (s3' & Hm & Ht3).
  rewrite (bind_Ok _ _ _ _ _ Hm). rewrite <- Ht3 in Hok3.
  destruct (fetch_returns article "all-access" s3' Hne Hok3) as (o4 & s4 & Hf4 & [u4 ->] & Hok4).
  destruct (all_access_part_well_formed _ _ _ _ Hf4 (Hwf _ _)) as (s4' & Hc & Ht4).
  exists s4'. split; [exact Hc|]. rewrite Ht4. exact Hok4.
Qed.

Lemma for_each_well_formed titles st :
  Forall (fun t => t <> "") titles ->
  template_ok (template st) ->
  (forall n u, well_formed (attempt_value (network n u)) = true) ->
  exists s', for_each (loop_body network) titles st = (Ok tt, s').
Proof.
  intros Hne. revert st. induction Hne as [|a titles Ha _ IH]; intros st Hok Hwf.
  - eexists. reflexivity.
  - cbn [for_each].
    destruct (loop_body_well_formed a st Ha Hok Hwf) as (s1 & H1 & Hok1).
    rewrite (bind_Ok _ _ _ _ _ H1). apply IH; assumption.
Qed.

(** C6: the calls a run of the acquisition cell makes are, in order,
    desktop, mobile-web, mobile-app, all-access for the first title,
    then the same four for the next, and so on: in any run they are a
    prefix of that sequence, all of it when the run ends without an
    exception; and with non-empty titles, the template's fields in
    place and responses that are [None], objects without ['items'] or
    objects with a list of monthly records, the run does end without
    an exception, having made exactly those four calls per title. *)
Theorem four_fetches_per_article (article_titles : list string) (st : state) :
  let run := data_acquisition network article_titles st in
  let expected := concat (turn_calls <$> article_titles) in
  (exists made,
      calls_made (snd run) = calls_made st ++ made
      /\ made `prefix_of` expected
      /\ (fst run = Ok tt -> made = expected))
  /\ (Forall (fun t => t <> "") article_titles ->
      template_ok (template st) ->
      (forall n u, well_formed (attempt_value (network n u)) = true) ->
      fst run = Ok tt
      /\ calls_made (snd run) = calls_made st ++ expected).
Proof.
  cbn zeta. unfold data_acquisition.
  set (st0 := State (template st) [] [] [] (trace st) (attempts st)).
  assert (Hr : reset_lists st = (Ok tt, st0)) by reflexivity.
  rewrite (bind_Ok _ _ _ _ _ Hr).
  destruct (for_each_calls article_titles st0) as (made & Hc & Hp & Hok).
  split; [exists made; auto|].
  intros Hne Htpl Hwf.
  destruct (for_each_well_formed article_titles st0 Hne Htpl Hwf) as (s' & Hrun).
  rewrite Hrun in *. cbn [fst snd] in *. split; [reflexivity|].
  rewrite Hc, (Hok eq_refl). reflexivity.
Qed.

End Loop.







(** ** The properties on the stub networks *)

Lemma request_errors_give_none_witness :
  "Bison" <> "" /\ template_ok (template initial_state)
  /\ fst (request_pageviews_per_article unreachable_network (Some "Bison") "desktop"
            API_REQUEST_PAGEVIEWS_ENDPOINT API_REQUEST_PER_ARTICLE_PARAMS
            REQUEST_HEADERS initial_state) = Ok JNull
  /\ prints (trace (snd (request_pageviews_per_article unreachable_network (Some "Bison")
                           "desktop" API_REQUEST_PAGEVIEWS_ENDPOINT
                           API_REQUEST_PER_ARTICLE_PARAMS REQUEST_HEADERS initial_state)))
     = prints (trace initial_state)
       ++ ["('Connection aborted.', OSError(65, 'No route to host'))"].
Proof.
  assert (Hne : "Bison" <> "") by discriminate.
  split; [exact Hne|]. split; [exact template_ok_initial|].
  exact (request_errors_give_none unreachable_network "Bison" "desktop"
           API_REQUEST_PAGEVIEWS_ENDPOINT REQUEST_HEADERS initial_state
           Hne template_ok_initial).
Defined.

Lemma request_sleeps_before_get_witness :
  exists url rest,
    trace (snd (fetch bison_network "Bison" "desktop" initial_state))
    = trace initial_state
      ++ EvCall (Some "Bison") "desktop" :: EvSleep API_THROTTLE_WAIT :: rest
    /\ match bison_network (attempts initial_state) url with
       | SleepRaises e => rest = [EvPrint (exn_str e)]
       | GetRaises e | JsonRaises e =>
           rest = [EvGet url REQUEST_HEADERS; EvPrint (exn_str e)]
       | Body _ => rest = [EvGet url REQUEST_HEADERS]
       end.
Proof.
  apply (request_sleeps_before_get bison_network (Some "Bison") "desktop"
           API_REQUEST_PAGEVIEWS_ENDPOINT API_REQUEST_PER_ARTICLE_PARAMS
           (bison_items 10 20) initial_state
           (snd (fetch bison_network "Bison" "desktop" initial_state))).
  vm_compute. reflexivity.
Defined.

Lemma request_without_title_raises_witness :
  template initial_state !! "article" = Some ""
  /\ fst (request_pageviews_per_article bison_network None "desktop"
            API_REQUEST_PAGEVIEWS_ENDPOINT API_REQUEST_PER_ARTICLE_PARAMS
            REQUEST_HEADERS initial_state)
     = Raise (Exn "Exception" "Must supply an article title to make a pageviews request.").
Proof.
  assert (Ha : template initial_state !! "article" = Some "") by (vm_compute; reflexivity).
  split; [exact Ha|].
  apply (request_without_title_raises bison_network None "desktop"
           API_REQUEST_PAGEVIEWS_ENDPOINT API_REQUEST_PER_ARTICLE_PARAMS
           REQUEST_HEADERS initial_state (or_introl eq_refl) Ha).
Defined.

Lemma template_mutation_persists_witness :
  let first := request_pageviews_per_article bison_network (Some "Crohn's disease")
                 "desktop" API_REQUEST_PAGEVIEWS_ENDPOINT API_REQUEST_PER_ARTICLE_PARAMS
                 REQUEST_HEADERS initial_state in
  let second := request_pageviews_per_article bison_network None "mobile-web"
                  API_REQUEST_PAGEVIEWS_ENDPOINT API_REQUEST_PER_ARTICLE_PARAMS
                  REQUEST_HEADERS (snd first) in
  (exists v, fst second = Ok v)
  /\ template (snd second) !! "article"
     = Some (encode_title (encode_title "Crohn's disease")).
Proof.
  assert (Hne : "Crohn's disease" <> "") by discriminate.
  pose proof (template_mutation_persists bison_network "Crohn's disease" "desktop"
                "mobile-web" API_REQUEST_PAGEVIEWS_ENDPOINT REQUEST_HEADERS
                initial_state Hne template_ok_initial) as H.
  cbn zeta in H. destruct H as (_ & H2 & _ & H4 & _).
  cbn zeta. split; [exact H2 | exact H4].
Defined.

Lemma desktop_rows_appended_witness :
  exists rows,
    desktop_dict (snd (loop_body bison_network "Bison" initial_state))
    = desktop_dict initial_state ++ rows
    /\ length rows = length (bison_months 10 20)
    /\ Forall2 (row_of "Bison") (bison_months 10 20) rows.
Proof.
  apply (desktop_rows_appended bison_network "Bison"
           [("items", JList (bison_months 10 20))] (bison_months 10 20) initial_state
           (snd (fetch bison_network "Bison" "desktop" initial_state))).
  - vm_compute. reflexivity.
  - reflexivity.
  - repeat constructor; eexists; reflexivity.
Defined.

Lemma mobile_rows_sum_matching_witness :
  exists rows,
    mobile_dict (snd (loop_body bison_network "Bison" initial_state))
    = mobile_dict initial_state ++ rows
    /\ (forall row, row ∈ rows ->
        exists i ts vw va,
          [("2015070100", 1%Z); ("2015080100", 2%Z)] !! i = Some (ts, vw)
          /\ [("2015070100", 3%Z); ("2015080100", 4%Z)] !! i = Some (ts, va)
          /\ article_title row = "Bison"
          /\ timestamp row = JStr ts
          /\ views row = JInt (vw + va))
    /\ (forall ts,
          ((ts ∈ [("2015070100", 1%Z); ("2015080100", 2%Z)].*1)
           /\ (ts ∉ [("2015070100", 3%Z); ("2015080100", 4%Z)].*1))
          \/ ((ts ∉ [("2015070100", 1%Z); ("2015080100", 2%Z)].*1)
              /\ (ts ∈ [("2015070100", 3%Z); ("2015080100", 4%Z)].*1)) ->
          forall row, row ∈ rows -> timestamp row <> JStr ts).
Proof.
  apply (mobile_rows_sum_matching bison_network "Bison"
           [("items", JList (bison_months 1 2))] [("items", JList (bison_months 3 4))]
           (bison_months 1 2) (bison_months 3 4)
           [("2015070100", 1%Z); ("2015080100", 2%Z)]
           [("2015070100", 3%Z); ("2015080100", 4%Z)]
           initial_state bison_after_desktop bison_after_web bison_after_app).
  - vm_compute. reflexivity.
  - vm_compute. reflexivity.
  - vm_compute. reflexivity.
  - reflexivity.
  - reflexivity.
  - repeat constructor.
  - repeat constructor.
Defined.

Lemma mobile_rows_positional_witness :
  exists rows,
    mobile_dict (snd (loop_body gap_network "Bison" initial_state))
    = mobile_dict initial_state ++ rows
    /\ length rows <= min (length gap_web) (length gap_app)
    /\ timestamp <$> rows = [JStr "2015070100"]
    /\ JStr "2015090100" ∉ (timestamp <$> rows).
Proof.
  destruct (mobile_rows_positional gap_network "Bison"
              [("items", JList gap_web)] [("items", JList gap_app)] gap_web gap_app
              [("2015070100", 1%Z); ("2015080100", 2%Z); ("2015090100", 3%Z)]
              [("2015070100", 10%Z); ("2015090100", 30%Z)]
              initial_state gap_after_desktop gap_after_web gap_after_app)
    as (rows & Hrows & Hlen & _ & Hgap).
  - vm_compute. reflexivity.
  - vm_compute. reflexivity.
  - vm_compute. reflexivity.
  - reflexivity.
  - reflexivity.
  - repeat constructor.
  - repeat constructor.
  - exists rows. split; [exact Hrows|]. split; [exact Hlen|].
    destruct (Hgap 1) as [Hk _].
    destruct Hk as [Hts Hlater].
    + split; [|reflexivity].
      cbn. repeat constructor; rewrite ?elem_of_cons, ?elem_of_nil;
        intros H; repeat destruct H as [H|H]; try discriminate H; exact H.
    + split; [exact Hts|]. apply (Hlater "2015090100"). cbn. left.
Defined.

Lemma no_data_is_skipped_witness :
  let s1 := snd (fetch unreachable_network "Bison" "desktop" initial_state) in
  let s' := with_print s1 "No desktop data found for Bison" in
  desktop_dict s' = desktop_dict initial_state
  /\ for_each (loop_body unreachable_network) ["Bison"; "Red squirrel"] initial_state
     = (mobile_part unreachable_network "Bison" ;;
        all_access_part unreachable_network "Bison" ;;
        for_each (loop_body unreachable_network) ["Red squirrel"]) s'.
Proof.
  apply (proj1 (no_data_is_skipped unreachable_network "Bison" ["Red squirrel"]
                  initial_state) JNull).
  - vm_compute. reflexivity.
  - left. reflexivity.
Defined.

Lemma four_fetches_per_article_witness :
  fst (data_acquisition bison_network ["Bison"] initial_state) = Ok tt
  /\ calls_made (snd (data_acquisition bison_network ["Bison"] initial_state))
     = calls_made initial_state ++ turn_calls "Bison".
Proof.
  apply (proj2 (four_fetches_per_article bison_network ["Bison"] initial_state)).
  - repeat constructor; discriminate.
  - exact template_ok_initial.
  - intros n u. destruct n as [|[|[|n]]]; reflexivity.
Defined.

(** * Further properties of the code *)

(** ** The encoded title *)

Lemma replace_without old new s :
  PyStr.mem old s = false -> PyStr.replace old new s = s.
Proof.
  induction s as [|c s IH]; [reflexivity|]. cbn [PyStr.mem PyStr.replace].
  intros H. apply orb_false_elim in H as [Hc Hs].
  rewrite Ascii.eqb_sym in Hc. rewrite Hc, (IH Hs). reflexivity.
Qed.

Lemma string_forall_append p s t :
  string_forall p (s +:+ t) = string_forall p s && string_forall p t.
Proof.
  induction s as [|c s IH]; [reflexivity|].
  change (p c && string_forall p (s +:+ t) = p c && string_forall p s && string_forall p t).
  rewrite IH. now destruct (p c).
Qed.

Lemma quoter_url_char c : string_forall url_char (Urllib.quoter Urllib.default_safe c) = true.
Proof. ascii_cases c; reflexivity. Qed.

Lemma quoter_no_escaped_slash c t :
  PyStr.contains "%2F" (Urllib.quoter Urllib.default_safe c +:+ t) = PyStr.contains "%2F" t.
Proof. ascii_cases c; reflexivity. Qed.

(** X1: the encoded title holds no space, and its underscores are the
    spaces and the underscores of the title. *)
Theorem encoded_title_spaces (s : string) :
  PyStr.mem " " (encode_title s) = false
  /\ PyStr.count "_" (encode_title s) = PyStr.count " " s + PyStr.count "_" s.
Proof.
  split; [apply quote_no_space | apply encode_title_underscores].
Qed.

(** X2: [quote] is called with its default [safe], so the encoded
    title has as many slashes as the title and never holds the escape
    [%2F]. *)
Theorem encoded_title_never_escapes_slash (s : string) :
  PyStr.count "/" (encode_title s) = PyStr.count "/" s
  /\ PyStr.contains "%2F" (encode_title s) = false.
Proof.
  split; [apply encode_title_slashes|].
  unfold encode_title, Urllib.quote.
  induction (PyStr.replace " " "_" s) as [|c r IH]; [reflexivity|].
  cbn [Urllib.quote_from_bytes]. rewrite quoter_no_escaped_slash. exact IH.
Qed.

Lemma quote_url_chars (s : string) : string_forall url_char (Urllib.quote s) = true.
Proof.
  unfold Urllib.quote. induction s as [|c r IH]; [reflexivity|].
  cbn [Urllib.quote_from_bytes]. rewrite string_forall_append, quoter_url_char, IH.
  reflexivity.
Qed.

(** X3: the encoded title is made of letters, digits, [_.-~], [/]
    and [%] only. *)
Theorem encoded_title_url_chars (s : string) :
  string_forall url_char (encode_title s) = true.
Proof. apply quote_url_chars. Qed.

Lemma string_length_append s t :
  String.length (s +:+ t) = String.length s + String.length t.
Proof.
  induction s as [|c s IH]; [reflexivity|].
  change (S (String.length (s +:+ t)) = S (String.length s) + String.length t).
  rewrite IH. reflexivity.
Qed.

Lemma quoter_length c : 1 <= String.length (Urllib.quoter Urllib.default_safe c).
Proof. ascii_cases c; vm_compute; lia. Qed.

Lemma quote_length s : String.length s <= String.length (Urllib.quote s).
Proof.
  unfold Urllib.quote. induction s as [|c s IH]; [reflexivity|].
  cbn [Urllib.quote_from_bytes String.length]. rewrite string_length_append.
  pose proof (quoter_length c). lia.
Qed.

Lemma quoter_cases c :
  url_char c = true ->
  (c = "%"%char /\ Urllib.quoter Urllib.default_safe c = "%25")
  \/ (Ascii.eqb "%" c = false /\ Urllib.quoter Urllib.default_safe c = String c EmptyString).
Proof.
  ascii_cases c; intros H;
    first [ discriminate H
          | left; split; reflexivity
          | right; split; reflexivity ].
Qed.

Lemma quote_fixed t :
  string_forall url_char t = true ->
  Urllib.quote t = t <-> PyStr.mem "%" t = false.
Proof.
  induction t as [|c r IH]; [intros _; split; reflexivity|].
  cbn [string_forall]. intros H. apply andb_prop in H as [Hc Hr].
  specialize (IH Hr). unfold Urllib.quote in *. cbn [Urllib.quote_from_bytes PyStr.mem].
  destruct (quoter_cases c Hc) as [[-> ->] | [Hne ->]].
  - split; [|discriminate]. intros Heq. exfalso.
    apply (f_equal String.length) in Heq.
    pose proof (quote_length r) as Hlen. unfold Urllib.quote in Hlen.
    rewrite string_length_append in Heq. cbn [String.length] in Heq. lia.
  - rewrite Hne. cbn [orb].
    change (String c (Urllib.quote_from_bytes Urllib.default_safe r) = String c r
            <-> PyStr.mem "%" r = false).
    rewrite <- IH. split; [intros [= H]; exact H | intros ->; reflexivity].
Qed.

(** X4: encoding an encoded title again gives it back exactly when it
    holds no percent sign; one that holds an escape is changed by the
    second encoding. *)
Theorem reencoding_fixed_point (s : string) :
  encode_title (encode_title s) = encode_title s
  <-> PyStr.mem "%" (encode_title s) = false.
Proof.
  unfold encode_title at 1.
  rewrite (replace_without " " "_" (encode_title s)) by apply quote_no_space.
  apply quote_fixed, quote_url_chars.
Qed.

Lemma hex_digit_inj a b :
  a < 16 -> b < 16 -> Urllib.hex_digit a = Urllib.hex_digit b -> a = b.
Proof.
  intros Ha Hb.
  do 16 (destruct a as [|a]; [do 16 (destruct b as [|b]; [first [reflexivity | discriminate]|]); lia|]).
  lia.
Qed.

Lemma quoter_shape c :
  (Urllib.quoter Urllib.default_safe c = String c EmptyString /\ c <> "%"%char)
  \/ Urllib.quoter Urllib.default_safe c = Urllib.percent c.
Proof.
  unfold Urllib.quoter.
  destruct (Urllib.always_safe c || PyStr.mem c Urllib.default_safe) eqn:E; [left|right; reflexivity].
  split; [reflexivity|]. intros ->. discriminate E.
Qed.

Lemma percent_inj c d : Urllib.percent c = Urllib.percent d -> c = d.
Proof.
  unfold Urllib.percent.
  pose proof (nat_ascii_bounded c) as Hc. pose proof (nat_ascii_bounded d) as Hd.
  pose proof (Nat.div_mod_eq (nat_of_ascii c) 16) as Ec.
  pose proof (Nat.div_mod_eq (nat_of_ascii d) 16) as Ed.
  assert (nat_of_ascii c / 16 < 16) by (apply Nat.Div0.div_lt_upper_bound; lia).
  assert (nat_of_ascii d / 16 < 16) by (apply Nat.Div0.div_lt_upper_bound; lia).
  assert (nat_of_ascii c mod 16 < 16) by (apply Nat.mod_upper_bound; lia).
  assert (nat_of_ascii d mod 16 < 16) by (apply Nat.mod_upper_bound; lia).
  remember (nat_of_ascii c / 16) as hc. remember (nat_of_ascii d / 16) as hd.
  remember (nat_of_ascii c mod 16) as lc. remember (nat_of_ascii d mod 16) as ld.
  intros [= Hhi Hlo].
  apply hex_digit_inj in Hhi; [|assumption..].
  apply hex_digit_inj in Hlo; [|assumption..].
  rewrite <- (ascii_nat_embedding c), <- (ascii_nat_embedding d). f_equal. lia.
Qed.

Lemma quoter_inj c d x y :
  Urllib.quoter Urllib.default_safe c +:+ x = Urllib.quoter Urllib.default_safe d +:+ y ->
  c = d /\ x = y.
Proof.
  intros H.
  destruct (quoter_shape c) as [[Ec Hc] | Ec], (quoter_shape d) as [[Ed Hd] | Ed];
    rewrite Ec, Ed in H; clear Ec Ed.
  - cbv [String.append] in H. injection H as -> ->. auto.
  - cbv [String.append Urllib.percent] in H. injection H as -> _. congruence.
  - cbv [String.append Urllib.percent] in H. injection H as <- _. congruence.
  - assert (Urllib.percent c = Urllib.percent d /\ x = y) as [Hp ->].
    { unfold Urllib.percent in *.
      remember (Urllib.hex_digit (nat_of_ascii c / 16)) as a1.
      remember (Urllib.hex_digit (nat_of_ascii c mod 16)) as a2.
      remember (Urllib.hex_digit (nat_of_ascii d / 16)) as b1.
      remember (Urllib.hex_digit (nat_of_ascii d mod 16)) as b2.
      cbv [String.append] in H. injection H as -> -> ->. auto. }
    split; [apply percent_inj, Hp | reflexivity].
Qed.

Lemma quote_inj s t : Urllib.quote s = Urllib.quote t -> s = t.
Proof.
  unfold Urllib.quote. revert t. induction s as [|c s IH]; intros [|d t] H.
  - reflexivity.
  - exfalso. cbn [Urllib.quote_from_bytes] in H. apply (f_equal String.length) in H.
    rewrite string_length_append in H. pose proof (quoter_length d). cbn in H. lia.
  - exfalso. cbn [Urllib.quote_from_bytes] in H. apply (f_equal String.length) in H.
    rewrite string_length_append in H. pose proof (quoter_length c). cbn in H. lia.
  - cbn [Urllib.quote_from_bytes] in H. apply quoter_inj in H as [-> H].
    f_equal. apply IH, H.
Qed.

(** X5: two titles get the same encoded title exactly when they are
    equal once their spaces are underscores: the escaping itself never
    maps two strings to one. *)
Theorem encoded_titles_collide_only_on_spaces (s t : string) :
  encode_title s = encode_title t
  <-> PyStr.replace " " "_" s = PyStr.replace " " "_" t.
Proof.
  unfold encode_title. split; [apply quote_inj | intros ->; reflexivity].
Qed.

(** ** The request URL and the template *)

Ltac in_list :=
  repeat first [apply list_elem_of_here | apply list_elem_of_further].

Ltac missing_field E :=
  eexists; split; [|split; [exact E | reflexivity]];
  unfold template_fields; in_list.

Lemma format_missing kw :
  ~ template_ok kw ->
  exists k,
    k ∈ template_fields /\ kw !! k = None
    /\ Py.format API_REQUEST_PER_ARTICLE_PARAMS kw = Raise (Exn "KeyError" ("'" +:+ k +:+ "'")).
Proof.
  intros Hno.
  unfold Py.format, API_REQUEST_PER_ARTICLE_PARAMS. cbn. cbv [String.append].
  destruct (kw !! "project") eqn:E1; [|missing_field E1].
  destruct (kw !! "access") eqn:E2; [|missing_field E2].
  destruct (kw !! "agent") eqn:E3; [|missing_field E3].
  destruct (kw !! "article") eqn:E4; [|missing_field E4].
  destruct (kw !! "granularity") eqn:E5; [|missing_field E5].
  destruct (kw !! "start") eqn:E6; [|missing_field E6].
  destruct (kw !! "end") eqn:E7; [|missing_field E7].
  exfalso. apply Hno. unfold template_ok, template_fields.
  repeat constructor; eauto.
Qed.

Lemma fld_insert_eq (kw : gmap string string) k v : fld (<[k := v]> kw) k = v.
Proof. unfold fld. rewrite lookup_insert_eq. reflexivity. Qed.

Lemma fld_insert_ne (kw : gmap string string) k k' v :
  k <> k' -> fld (<[k := v]> kw) k' = fld kw k'.
Proof. intros H. unfold fld. rewrite lookup_insert_ne by exact H. reflexivity. Qed.

Lemma params_of_final (kw : gmap string string) endpoint_url access_type enc :
  endpoint_url +:+ params_of (<["article" := enc]> (<["access" := access_type]> kw))
  = article_url endpoint_url kw access_type enc.
Proof.
  unfold params_of, article_url.
  rewrite fld_insert_eq.
  rewrite !(fld_insert_ne _ "article") by discriminate.
  rewrite fld_insert_eq.
  rewrite !(fld_insert_ne _ "access") by discriminate.
  reflexivity.
Qed.

Section FetcherMore.

Variable network : nat -> string -> outcome.

(** X6: for a call with an article to work on and the template's
    fields in place, the GET goes to the endpoint followed by
    [per-article/], the template's project, the access type given, the
    template's agent, the encoded article, and the template's
    granularity, start and end, joined by slashes; there is no GET only
    when the sleep raises. *)
Theorem request_url_segments (title : option string)
    (access_type endpoint_url : string) (headers : list (string * string))
    (st : state) (a : string) :
  template_ok (template st) ->
  effective_template title (template st) !! "article" = Some a ->
  a <> "" ->
  let url := article_url endpoint_url (template st) access_type (encode_title a) in
  let run := request_pageviews_per_article network title access_type
               endpoint_url API_REQUEST_PER_ARTICLE_PARAMS headers st in
  gets (trace (snd run))
  = gets (trace st) ++ match network (attempts st) url with
                       | SleepRaises _ => []
                       | _ => [(url, headers)]
                       end.
Proof.
  intros Hok Ha Hne. cbn zeta.
  rewrite (request_ok network title access_type endpoint_url headers st a Hok Ha Hne).
  cbn [snd trace]. rewrite gets_app, params_of_final.
  destruct (network _ _); reflexivity.
Qed.

Lemma effective_template_other title (kw : gmap string string) k :
  k <> "article" -> effective_template title kw !! k = kw !! k.
Proof.
  intros Hk. unfold effective_template.
  destruct title as [t|]; [destruct (PyStr.truthy t)|]; try reflexivity.
  apply lookup_insert_ne. congruence.
Qed.

(** X7: when the template lacks one of the fields the call does not
    write, the call raises [KeyError] for a missing field while
    building the URL: it has not slept nor sent anything, but it has
    already written the access type and the encoded article into the
    template. *)
Theorem missing_field_raises_before_request (title : option string)
    (access_type endpoint_url : string) (headers : list (string * string))
    (st : state) (a k : string) :
  effective_template title (template st) !! "article" = Some a ->
  a <> "" ->
  k ∈ fixed_fields ->
  template st !! k = None ->
  let run := request_pageviews_per_article network title access_type
               endpoint_url API_REQUEST_PER_ARTICLE_PARAMS headers st in
  (exists k', k' ∈ fixed_fields /\ template st !! k' = None
              /\ fst run = Raise (Exn "KeyError" ("'" +:+ k' +:+ "'")))
  /\ attempts (snd run) = attempts st
  /\ trace (snd run) = trace st ++ [EvCall title access_type]
  /\ template (snd run) !! "article" = Some (encode_title a)
  /\ template (snd run) !! "access" = Some access_type.
Proof.
  intros Ha Hne Hk Hnone. cbn zeta.
  rewrite request_unfold. unfold request_normal_form.
  rewrite Ha. apply truthy_iff in Hne. rewrite Hne.
  set (kw := <["article" := encode_title a]> (<["access" := access_type]>
               (effective_template title (template st)))).
  assert (Hother : forall i, i <> "article" -> i <> "access" -> kw !! i = template st !! i).
  { intros i H1 H2. unfold kw.
    rewrite lookup_insert_ne by congruence. rewrite lookup_insert_ne by congruence.
    apply effective_template_other, H1. }
  assert (Hfixed : forall i, i ∈ fixed_fields -> i <> "article" /\ i <> "access").
  { intros i Hi. unfold fixed_fields in Hi.
    repeat (apply elem_of_cons in Hi as [-> | Hi]; [split; discriminate|]).
    apply elem_of_nil in Hi. destruct Hi. }
  assert (Hno : ~ template_ok kw).
  { intros Hok. unfold template_ok in Hok. rewrite Forall_forall in Hok.
    destruct (Hfixed k Hk) as [H1 H2].
    assert (Hin : k ∈ template_fields).
    { unfold fixed_fields in Hk. unfold template_fields.
      repeat (apply elem_of_cons in Hk as [-> | Hk]; [in_list|]).
      apply elem_of_nil in Hk. destruct Hk. }
    destruct (Hok k Hin) as [v Hv]. rewrite Hother in Hv by assumption. congruence. }
  destruct (format_missing kw Hno) as (k' & Hin & Hk' & Hfmt).
  rewrite Hfmt. cbn [fst snd attempts trace template].
  assert (Hk'fixed : k' ∈ fixed_fields).
  { unfold template_fields in Hin. unfold fixed_fields.
    repeat (apply elem_of_cons in Hin as [-> | Hin]);
      try (apply elem_of_nil in Hin; destruct Hin);
      try (in_list; fail).
    - unfold kw in Hk'. rewrite lookup_insert_ne in Hk' by discriminate.
      rewrite lookup_insert_eq in Hk'. discriminate.
    - unfold kw in Hk'. rewrite lookup_insert_eq in Hk'. discriminate. }
  split.
  { exists k'. split; [exact Hk'fixed|]. split; [|reflexivity].
    destruct (Hfixed k' Hk'fixed). rewrite <- Hother by assumption. exact Hk'. }
  split; [reflexivity|]. split; [reflexivity|].
  unfold kw. split; [apply lookup_insert_eq|].
  rewrite lookup_insert_ne by discriminate. apply lookup_insert_eq.
Qed.

(** X9: a call with a non-empty title does not depend on what earlier
    calls left in the template's [article] and [access] fields: from
    two states that differ only there it returns the same result, leaves
    the same template and adds the same events. *)
Theorem explicit_title_ignores_stale_template (t access_type endpoint_url : string)
    (headers : list (string * string)) (st1 st2 : state) :
  t <> "" ->
  template_ok (template st1) ->
  template_ok (template st2) ->
  attempts st1 = attempts st2 ->
  (forall k, k <> "article" -> k <> "access" -> template st1 !! k = template st2 !! k) ->
  let run1 := request_pageviews_per_article network (Some t) access_type
                endpoint_url API_REQUEST_PER_ARTICLE_PARAMS headers st1 in
  let run2 := request_pageviews_per_article network (Some t) access_type
                endpoint_url API_REQUEST_PER_ARTICLE_PARAMS headers st2 in
  fst run1 = fst run2
  /\ template (snd run1) = template (snd run2)
  /\ exists added,
      trace (snd run1) = trace st1 ++ added /\ trace (snd run2) = trace st2 ++ added.
Proof.
  intros Hne Hok1 Hok2 Hatt Hsame. cbn zeta.
  rewrite (request_ok network (Some t) access_type endpoint_url headers st1 t Hok1
             (effective_some t _ Hne) Hne).
  rewrite (request_ok network (Some t) access_type endpoint_url headers st2 t Hok2
             (effective_some t _ Hne) Hne).
  cbn [fst snd template trace].
  assert (Hkw : <["article" := encode_title t]> (<["access" := access_type]> (template st1))
                = <["article" := encode_title t]> (<["access" := access_type]> (template st2))).
  { apply map_eq. intros i.
    destruct (decide (i = "article")) as [-> | H1]; [rewrite !lookup_insert_eq; reflexivity|].
    rewrite !(lookup_insert_ne _ "article") by congruence.
    destruct (decide (i = "access")) as [-> | H2]; [rewrite !lookup_insert_eq; reflexivity|].
    rewrite !(lookup_insert_ne _ "access") by congruence.
    apply Hsame; assumption. }
  rewrite Hkw, Hatt. split; [reflexivity|]. split; [reflexivity|].
  eexists. split; reflexivity.
Qed.

End FetcherMore.

(** ** What a whole run keeps *)

Section Run.

Variable network : nat -> string -> outcome.
Variable R : state -> state -> Prop.
Hypothesis R_refl : forall st, R st st.
Hypothesis R_trans : forall s1 s2 s3, R s1 s2 -> R s2 s3 -> R s1 s3.

Lemma relates_ret {A} (a : A) : relates R (ret a).
Proof. intros st. apply R_refl. Qed.

Lemma relates_lift {A} (r : result A) : relates R (lift r).
Proof. intros st. apply R_refl. Qed.

Lemma relates_bind {A B} (m : M A) (k : A -> M B) :
  relates R m -> (forall a, relates R (k a)) -> relates R (bind m k).
Proof.
  intros Hm Hk st. unfold bind. specialize (Hm st).
  destruct (m st) as [[a|e] s1]; cbn [snd] in *; [|exact Hm].
  eapply R_trans; [exact Hm | apply Hk].
Qed.

Lemma relates_for_each {A} (body : A -> M unit) l :
  (forall x, x ∈ l -> relates R (body x)) -> relates R (for_each body l).
Proof.
  induction l as [|x l IH]; intros Hb; cbn [for_each].
  - apply relates_ret.
  - apply relates_bind; [apply Hb; left|].
    intros _. apply IH. intros y Hy. apply Hb. right. exact Hy.
Qed.

Lemma relates_has_items v : relates R (has_items v).
Proof. unfold has_items. destruct (Py.truthy v); [apply relates_lift | apply relates_ret]. Qed.

Variable titles : list string.
Hypothesis R_request :
  forall article access_type, relates R (fetch network article access_type).
Hypothesis R_print : forall line, relates R (print line).
Hypothesis R_desktop :
  forall article ts v, article ∈ titles -> relates R (desktop_append (Pageview article ts v)).
Hypothesis R_mobile :
  forall article ts v, article ∈ titles -> relates R (mobile_append (Pageview article ts v)).
Hypothesis R_cumulative :
  forall article ts v, article ∈ titles -> relates R (cumulative_append (Pageview article ts v)).

Lemma relates_desktop_part article :
  article ∈ titles -> relates R (desktop_part network article).
Proof.
  intros Hin. unfold desktop_part.
  apply relates_bind; [apply R_request|]. intros v.
  apply relates_bind; [apply relates_has_items|]. intros [|]; [|apply R_print].
  apply relates_bind; [apply relates_lift|]. intros items.
  apply relates_bind; [apply relates_lift|]. intros records.
  apply relates_for_each. intros r _ st.
  unfold month_data, bind, lift, ret.
  destruct (Py.getitem r "timestamp"); [|apply R_refl].
  destruct (Py.getitem r "views"); [|apply R_refl].
  apply R_desktop, Hin.
Qed.

Lemma relates_all_access_part article :
  article ∈ titles -> relates R (all_access_part network article).
Proof.
  intros Hin. unfold all_access_part.
  apply relates_bind; [apply R_request|]. intros v.
  apply relates_bind; [apply relates_has_items|]. intros [|]; [|apply R_print].
  apply relates_bind; [apply relates_lift|]. intros items.
  apply relates_bind; [apply relates_lift|]. intros records.
  apply relates_for_each. intros r _ st.
  unfold month_data, bind, lift, ret.
  destruct (Py.getitem r "timestamp"); [|apply R_refl].
  destruct (Py.getitem r "views"); [|apply R_refl].
  apply R_cumulative, Hin.
Qed.

Lemma relates_mobile_part article :
  article ∈ titles -> relates R (mobile_part network article).
Proof.
  intros Hin. unfold mobile_part.
  apply relates_bind; [apply R_request|]. intros v.
  apply relates_bind; [apply R_request|]. intros r.
  apply relates_bind; [apply relates_has_items|]. intros c1.
  apply relates_bind;
    [destruct c1; [apply relates_has_items | apply relates_ret]|].
  intros [|]; [|apply R_print].
  do 4 (apply relates_bind; [apply relates_lift|]; intros ?).
  apply relates_for_each. intros [w p] _ st.
  unfold mobile_pair, bind, lift, ret.
  destruct (Py.getitem w "timestamp") as [tw|]; [|apply R_refl].
  destruct (Py.getitem p "timestamp") as [ta|]; [|apply R_refl].
  destruct (Py.eq tw ta); [|apply R_refl].
  destruct (Py.getitem w "views") as [vw|]; [|apply R_refl].
  destruct (Py.getitem p "views") as [va|]; [|apply R_refl].
  destruct (Py.add vw va); [|apply R_refl].
  apply R_mobile, Hin.
Qed.

Lemma relates_loop :
  relates R (for_each (loop_body network) titles).
Proof.
  apply relates_for_each. intros article Hin. unfold loop_body.
  apply relates_bind; [apply relates_desktop_part, Hin|]. intros _.
  apply relates_bind; [apply relates_mobile_part, Hin|]. intros _.
  apply relates_all_access_part, Hin.
Qed.

End Run.

Section RunProperties.

Variable network : nat -> string -> outcome.

Lemma request_template_cases title access_type endpoint_url endpoint_params headers st :
  let kw := effective_template title (template st) in
  let kw' := template (snd (request_pageviews_per_article network title access_type
                              endpoint_url endpoint_params headers st)) in
  kw' = kw \/ exists e, kw' = <["article" := e]> (<["access" := access_type]> kw).
Proof.
  cbn zeta. rewrite request_unfold. unfold request_normal_form.
  destruct (_ !! "article") as [a|]; [|left; reflexivity].
  destruct (PyStr.truthy a); [|left; reflexivity].
  destruct (Py.format _ _); right; eexists; reflexivity.
Qed.

Lemma request_trace_cases title access_type endpoint_url endpoint_params headers st :
  let tr' := trace (snd (request_pageviews_per_article network title access_type
                           endpoint_url endpoint_params headers st)) in
  tr' = trace st ++ [EvCall title access_type]
  \/ exists o u, tr' = trace st ++ EvCall title access_type :: attempt_events o u headers.
Proof.
  cbn zeta. rewrite request_unfold. unfold request_normal_form.
  destruct (_ !! "article") as [a|]; [|left; reflexivity].
  destruct (PyStr.truthy a); [|left; reflexivity].
  destruct (Py.format _ _); [|left; reflexivity].
  right. eexists _, _. cbn [snd trace]. rewrite <- app_assoc. reflexivity.
Qed.

Lemma effective_template_ok title kw : template_ok kw -> template_ok (effective_template title kw).
Proof.
  intros H. unfold effective_template.
  destruct title as [t|]; [destruct (PyStr.truthy t)|]; try exact H.
  apply template_ok_insert, H.
Qed.

(** X8: a run of the acquisition cell, however it ends, changes no
    field of the template other than [article] and [access], and a
    template that has its seven fields still has them afterwards. *)
Theorem run_keeps_template_fields (article_titles : list string) (st : state) :
  let st' := snd (data_acquisition network article_titles st) in
  (forall k, k <> "article" -> k <> "access" -> template st' !! k = template st !! k)
  /\ (template_ok (template st) -> template_ok (template st')).
Proof.
  cbn zeta. unfold data_acquisition.
  assert (Hr : reset_lists st
               = (Ok tt, State (template st) [] [] [] (trace st) (attempts st)))
    by reflexivity.
  rewrite (bind_Ok _ _ _ _ _ Hr). split.
  - intros k H1 H2.
    refine (relates_loop network (fun s s' => template s' !! k = template s !! k)
              _ _ article_titles _ _ _ _ _ (State (template st) [] [] [] (trace st) (attempts st)));
      cbn beta; try (unfold relates; intros; reflexivity).
    + intros s1 s2 s3 E1 E2. rewrite E2. exact E1.
    + intros article access_type s. unfold fetch.
      destruct (request_template_cases (Some article) access_type
                  API_REQUEST_PAGEVIEWS_ENDPOINT API_REQUEST_PER_ARTICLE_PARAMS
                  REQUEST_HEADERS s) as [-> | [e ->]].
      * apply effective_template_other, H1.
      * rewrite lookup_insert_ne by congruence. rewrite lookup_insert_ne by congruence.
        apply effective_template_other, H1.
  - refine (relates_loop network
              (fun s s' => template_ok (template s) -> template_ok (template s'))
              _ _ article_titles _ _ _ _ _ (State (template st) [] [] [] (trace st) (attempts st)));
      cbn beta; try (unfold relates; intros; assumption).
    + intros s1 s2 s3 E1 E2 H. apply E2, E1, H.
    + intros article access_type s Hok. unfold fetch.
      destruct (request_template_cases (Some article) access_type
                  API_REQUEST_PAGEVIEWS_ENDPOINT API_REQUEST_PER_ARTICLE_PARAMS
                  REQUEST_HEADERS s) as [-> | [e ->]].
      * apply effective_template_ok, Hok.
      * do 2 apply template_ok_insert. apply effective_template_ok, Hok.
Qed.

(** *** Traces *)

Lemma extends_by_refl P : P [] -> forall st, extends_by P st st.
Proof. intros H st. exists []. rewrite app_nil_r. auto. Qed.

Lemma extends_by_trans P :
  (forall a b, P a -> P b -> P (a ++ b)) ->
  forall s1 s2 s3, extends_by P s1 s2 -> extends_by P s2 s3 -> extends_by P s1 s3.
Proof.
  intros Happ s1 s2 s3 (a & Ea & Ha) (b & Eb & Hb).
  exists (a ++ b). rewrite Eb, Ea, <- app_assoc. auto.
Qed.

Lemma run_extends_by P (article_titles : list string) (st : state) :
  P [] ->
  (forall a b, P a -> P b -> P (a ++ b)) ->
  (forall title access_type, P [EvCall title access_type]) ->
  (forall title access_type o u h, P (EvCall title access_type :: attempt_events o u h)) ->
  (forall line, P [EvPrint line]) ->
  extends_by P st (snd (data_acquisition network article_titles st)).
Proof.
  intros Hnil Happ Hcall Hatt Hprint. unfold data_acquisition.
  assert (Hr : reset_lists st
               = (Ok tt, State (template st) [] [] [] (trace st) (attempts st)))
    by reflexivity.
  rewrite (bind_Ok _ _ _ _ _ Hr).
  refine (relates_loop network (extends_by P) (extends_by_refl P Hnil)
            (extends_by_trans P Happ) article_titles _ _ _ _ _ (State (template st) [] [] [] (trace st) (attempts st))).
  - intros article access_type s. unfold fetch.
    destruct (request_trace_cases (Some article) access_type
                API_REQUEST_PAGEVIEWS_ENDPOINT API_REQUEST_PER_ARTICLE_PARAMS
                REQUEST_HEADERS s) as [E | (o & u & E)];
      eexists; (split; [exact E|]); auto.
  - intros line s. eexists. split; [reflexivity | apply Hprint].
  - intros article ts v _ s. exists []. cbn. rewrite app_nil_r. auto.
  - intros article ts v _ s. exists []. cbn. rewrite app_nil_r. auto.
  - intros article ts v _ s. exists []. cbn. rewrite app_nil_r. auto.
Qed.

Lemma throttled_weaken b tr : throttled_from false tr -> throttled_from b tr.
Proof.
  destruct tr as [|[] r]; cbn; try tauto. intros [H _]. discriminate H.
Qed.

Lemma throttled_app b tr1 tr2 :
  throttled_from b tr1 -> throttled tr2 -> throttled_from b (tr1 ++ tr2).
Proof.
  revert b. induction tr1 as [|ev tr1 IH]; intros b H1 H2.
  - apply throttled_weaken, H2.
  - destruct ev; cbn in *; try (apply IH; assumption);
      (destruct H1 as [H H1]; split; [exact H | apply IH; assumption]).
Qed.

(** X10: in the events a run adds to the trace, every GET comes
    directly after a sleep, and every sleep lasts [API_THROTTLE_WAIT]. *)
Theorem run_sleeps_before_every_get (article_titles : list string) (st : state) :
  exists added,
    trace (snd (data_acquisition network article_titles st)) = trace st ++ added
    /\ throttled added.
Proof.
  apply (run_extends_by throttled).
  - exact I.
  - intros a b. apply throttled_app.
  - intros. exact I.
  - intros title access_type o u h. destruct o; cbn; auto.
  - intros. exact I.
Qed.



(** *** Rows *)

Lemma rows_for_outputs titles (s s' : state) :
  desktop_dict s' = desktop_dict s ->
  mobile_dict s' = mobile_dict s ->
  cumulative_dict s' = cumulative_dict s ->
  rows_for titles s -> rows_for titles s'.
Proof. unfold rows_for. intros -> -> ->. auto. Qed.

(** X12: after a run, however it ends and whatever the lists held
    before, every row of the three lists carries a title of the input
    list. *)
Theorem run_rows_are_for_titles (article_titles : list string) (st : state) :
  rows_for article_titles (snd (data_acquisition network article_titles st)).
Proof.
  unfold data_acquisition.
  assert (Hr : reset_lists st
               = (Ok tt, State (template st) [] [] [] (trace st) (attempts st)))
    by reflexivity.
  rewrite (bind_Ok _ _ _ _ _ Hr).
  refine (relates_loop network
            (fun s s' => rows_for article_titles s -> rows_for article_titles s')
            _ _ article_titles _ _ _ _ _ (State (template st) [] [] [] (trace st) (attempts st)) _); cbn beta.
  - auto.
  - intros s1 s2 s3 E1 E2 H. apply E2, E1, H.
  - intros article access_type s. apply rows_for_outputs.
    + apply fetch_frames_desktop.
    + apply fetch_frames_mobile.
    + apply fetch_frames_cumulative.
  - intros line s. apply rows_for_outputs; reflexivity.
  - intros article ts v Hin s. unfold rows_for. cbn.
    rewrite !Forall_app. intros (Hd & Hm & Hc).
    repeat split; try assumption. repeat constructor. exact Hin.
  - intros article ts v Hin s. unfold rows_for. cbn.
    rewrite !Forall_app. intros (Hd & Hm & Hc).
    repeat split; try assumption. repeat constructor. exact Hin.
  - intros article ts v Hin s. unfold rows_for. cbn.
    rewrite !Forall_app. intros (Hd & Hm & Hc).
    repeat split; try assumption. repeat constructor. exact Hin.
  - unfold rows_for. cbn. constructor.
Qed.

End RunProperties.

(** ** More on the parts of a turn *)

Lemma merge_rows_aligned article web app :
  web.*1 = app.*1 -> merge_rows article web app = zip_with (sum_row article) web app.
Proof.
  revert app. induction web as [|[tw vw] web IH]; intros [|[ta va] app] H;
    try discriminate; try reflexivity.
  cbn [fmap list_fmap fst] in H. injection H as -> H.
  rewrite merge_rows_cons. unfold merge_pair. cbn [fst snd].
  rewrite String.eqb_refl. cbn [option_list zip_with]. rewrite (IH _ H). reflexivity.
Qed.

Lemma merge_rows_sym article web app :
  merge_rows article web app = merge_rows article app web.
Proof.
  revert app. induction web as [|[tw vw] web IH]; intros [|[ta va] app]; try reflexivity.
  rewrite !merge_rows_cons, IH. f_equal.
  unfold merge_pair. cbn [fst snd]. rewrite (String.eqb_sym ta tw).
  destruct (String.eqb tw ta) eqn:E; [|reflexivity].
  apply String.eqb_eq in E. subst ta. rewrite Z.add_comm. reflexivity.
Qed.

Lemma for_each_app {A} (body : A -> M unit) l1 l2 st :
  for_each body (l1 ++ l2) st = bind (for_each body l1) (fun _ => for_each body l2) st.
Proof.
  revert st. induction l1 as [|x l1 IH]; intros st; [reflexivity|].
  cbn [for_each List.app]. rewrite bind_assoc.
  destruct (body x st) as [[[]|e] s1] eqn:E.
  - rewrite !(bind_Ok _ _ _ _ _ E). apply IH.
  - rewrite !(bind_Raise _ _ _ _ _ E). reflexivity.
Qed.

Section Parts.

Variable network : nat -> string -> outcome.

(** X13: when the desktop and mobile parts of a turn have completed
    and the all-access response is an object whose ['items'] is a list
    of N records with a timestamp and views, the turn completes and adds
    exactly N rows to the cumulative list, the i-th with the title as
    given and the i-th item's timestamp and views. *)
Theorem all_access_rows_appended (article : string) (d : list (string * json))
    (items : list json) (st s0 s1 : state) :
  (desktop_part network article ;; mobile_part network article) st = (Ok tt, s0) ->
  fetch network article "all-access" s0 = (Ok (JDict d), s1) ->
  Py.dict_get "items" d = Some (JList items) ->
  Forall has_month_fields items ->
  exists rows,
    fst (loop_body network article st) = Ok tt
    /\ cumulative_dict (snd (loop_body network article st)) = cumulative_dict st ++ rows
    /\ length rows = length items
    /\ Forall2 (row_of article) items rows.
Proof.
  intros Hdm Hf Hd Hitems.
  destruct (rows_exist article items Hitems) as [rows Hrows].
  exists rows.
  assert (Hbody : loop_body network article st
                  = all_access_part network article s0).
  { unfold loop_body. rewrite <- bind_assoc.
    exact (bind_Ok _ (fun _ => all_access_part network article) _ _ _ Hdm). }
  rewrite Hbody, (all_access_part_items network _ _ _ _ _ _ Hf Hd Hrows).
  cbn [fst snd cumulative_dict].
  split; [reflexivity|]. split; [|split; [symmetry; eapply Forall2_length, Hrows | exact Hrows]].
  rewrite (frames_snd _ _ _ _ _ (fetch_frames_cumulative network article "all-access") Hf).
  assert (Hfr : frames cumulative_dict
                  (desktop_part network article ;; mobile_part network article)).
  { apply frames_bind; [apply desktop_part_frames_cumulative|].
    intros _. apply mobile_part_frames_cumulative. }
  rewrite (frames_snd _ _ _ _ _ Hfr Hdm). reflexivity.
Qed.

(** X14: when the two mobile lists hold the same months in the same
    order, every month gets a row: the rows added are the position-wise
    sums, as many as there are months. *)
Theorem aligned_months_all_merged (article : string) (dw da : list (string * json))
    (ws aps : list json) (wl al : list (string * Z)) (st s0 s1 s2 : state) :
  desktop_part network article st = (Ok tt, s0) ->
  fetch network article "mobile-web" s0 = (Ok (JDict dw), s1) ->
  fetch network article "mobile-app" s1 = (Ok (JDict da), s2) ->
  Py.dict_get "items" dw = Some (JList ws) ->
  Py.dict_get "items" da = Some (JList aps) ->
  Forall2 (fun r p => as_month r = Some p) ws wl ->
  Forall2 (fun r p => as_month r = Some p) aps al ->
  wl.*1 = al.*1 ->
  mobile_dict (snd (loop_body network article st))
  = mobile_dict st ++ zip_with (sum_row article) wl al
  /\ length (zip_with (sum_row article) wl al) = length ws.
Proof.
  intros Hd Hw Ha Hdw Hda Hws Has Hal.
  rewrite (mobile_after_turn network _ _ _ _ _ _ _ _ _ _ _ Hd Hw Ha Hdw Hda Hws Has).
  rewrite (merge_rows_aligned article wl al Hal). split; [reflexivity|].
  rewrite length_zip_with, (Forall2_length _ _ _ Hws).
  assert (length wl = length al)
    by (rewrite <- (length_fmap fst wl), <- (length_fmap fst al), Hal; reflexivity).
  lia.
Qed.

(** X15: on monthly records the [zip] loop gives the same result with
    its two lists exchanged. *)
Theorem mobile_merge_symmetric (article : string) (ws aps : list json)
    (wl al : list (string * Z)) (st : state) :
  Forall2 (fun r p => as_month r = Some p) ws wl ->
  Forall2 (fun r p => as_month r = Some p) aps al ->
  for_each (mobile_pair article) (zip ws aps) st
  = for_each (mobile_pair article) (zip aps ws) st.
Proof.
  intros Hws Has.
  rewrite (for_each_mobile article ws aps wl al st Hws Has).
  rewrite (for_each_mobile article aps ws al wl st Has Hws).
  rewrite (merge_rows_sym article wl al). reflexivity.
Qed.

(** X16: a desktop response that is not an object never gives a row.
    When it is falsy, or does not hold ['items'], the notice is printed;
    when it is truthy and is a number or [true], or holds ['items'] (a
    string or a list can), the part raises [TypeError] right after the
    fetch. *)
Theorem non_object_response_gives_no_rows (article : string) (v : json) (st s1 : state) :
  fetch network article "desktop" st = (Ok v, s1) ->
  (forall d, v <> JDict d) ->
  let run := desktop_part network article st in
  let notice := "No desktop data found for " +:+ article in
  (Py.truthy v = false \/ Py.contains "items" v = Ok false ->
   run = (Ok tt, with_print s1 notice))
  /\ (Py.truthy v = true -> Py.contains "items" v <> Ok false ->
      exists msg, run = (Raise (Exn "TypeError" msg), s1)).
Proof.
  intros Hf Hnd. cbn zeta. unfold desktop_part.
  rewrite (bind_Ok _ _ _ _ _ Hf). unfold has_items, bind, lift, ret.
  split.
  - intros [Hfalse | Hno].
    + rewrite Hfalse. reflexivity.
    + destruct (Py.truthy v); [rewrite Hno|]; reflexivity.
  - intros Htrue Hyes. rewrite Htrue.
    destruct v as [| b | n | s | l | d]; try discriminate Htrue;
      try (eexists; reflexivity).
    + cbn [Py.contains] in *. destruct (PyStr.contains "items" s); [|congruence].
      eexists. reflexivity.
    + cbn [Py.contains] in *. destruct (existsb _ l); [|congruence].
      eexists. reflexivity.
    + exfalso. apply (Hnd d). reflexivity.
Qed.

(** X17: when a record of the desktop ['items'] list lacks its
    timestamp or its views, the loop over the titles stops with that
    exception: the rows of the records before it stay in the desktop
    list, and nothing else is done, neither for this title nor for the
    later ones. *)
Theorem rows_before_bad_record_are_kept (article : string) (later : list string)
    (d : list (string * json)) (good rest : list json) (bad : json)
    (rows : list pageview) (e : exn) (st s1 : state) :
  fetch network article "desktop" st = (Ok (JDict d), s1) ->
  Py.dict_get "items" d = Some (JList (good ++ bad :: rest)) ->
  Forall2 (row_of article) good rows ->
  Py.getitem bad "timestamp" = Raise e
  \/ ((exists t, Py.getitem bad "timestamp" = Ok t) /\ Py.getitem bad "views" = Raise e) ->
  for_each (loop_body network) (article :: later) st
  = (Raise e, State (template s1) (desktop_dict s1 ++ rows) (mobile_dict s1)
                    (cumulative_dict s1) (trace s1) (attempts s1)).
Proof.
  intros Hf Hd Hgood Hbad.
  cbn [for_each]. unfold loop_body. rewrite bind_assoc.
  apply bind_Raise. unfold desktop_part.
  rewrite (bind_Ok _ _ _ _ _ Hf).
  rewrite (bind_Ok _ _ _ _ _ (has_items_yes d _ s1 Hd)).
  unfold bind at 1, lift, Py.getitem. rewrite Hd.
  unfold bind at 1. cbn [Py.iter].
  rewrite for_each_app.
  rewrite (bind_Ok _ _ _ _ _ (for_each_desktop article good rows s1 Hgood)).
  cbn [for_each]. apply bind_Raise. apply bind_Raise.
  unfold month_data, bind, lift.
  destruct Hbad as [-> | [[t ->] ->]]; reflexivity.
Qed.

End Parts.

(** ** The further properties on concrete states and networks *)

Lemma request_url_segments_witness :
  gets (trace (snd (fetch bison_network "Northern flicker" "mobile-web" initial_state)))
  = [("https://wikimedia.org/api/rest_v1/metrics/pageviews/per-article/en.wikipedia.org/mobile-web/user/Northern_flicker/monthly/2015070100/2024093000",
      REQUEST_HEADERS)].
Proof.
  assert (Hne : "Northern flicker" <> "") by discriminate.
  exact (request_url_segments bison_network (Some "Northern flicker") "mobile-web"
           API_REQUEST_PAGEVIEWS_ENDPOINT REQUEST_HEADERS initial_state
           "Northern flicker" template_ok_initial
           (effective_some "Northern flicker" _ Hne) Hne).
Defined.

Lemma missing_field_raises_before_request_witness :
  let run := request_pageviews_per_article bison_network (Some "Bison") "desktop"
               API_REQUEST_PAGEVIEWS_ENDPOINT API_REQUEST_PER_ARTICLE_PARAMS
               REQUEST_HEADERS no_project_state in
  (exists k', k' ∈ fixed_fields /\ template no_project_state !! k' = None
              /\ fst run = Raise (Exn "KeyError" ("'" +:+ k' +:+ "'")))
  /\ attempts (snd run) = attempts no_project_state
  /\ trace (snd run) = trace no_project_state ++ [EvCall (Some "Bison") "desktop"]
  /\ template (snd run) !! "article" = Some (encode_title "Bison")
  /\ template (snd run) !! "access" = Some "desktop".
Proof.
  apply (missing_field_raises_before_request bison_network (Some "Bison") "desktop"
           API_REQUEST_PAGEVIEWS_ENDPOINT REQUEST_HEADERS no_project_state
           "Bison" "project").
  - vm_compute. reflexivity.
  - discriminate.
  - unfold fixed_fields. in_list.
  - vm_compute. reflexivity.
Defined.

Lemma explicit_title_ignores_stale_template_witness :
  fst (fetch bison_network "Bison" "desktop" initial_state)
  = fst (fetch bison_network "Bison" "desktop" stale_state)
  /\ template (snd (fetch bison_network "Bison" "desktop" initial_state))
     = template (snd (fetch bison_network "Bison" "desktop" stale_state)).
Proof.
  assert (Hne : "Bison" <> "") by discriminate.
  assert (Hok : template_ok (template stale_state))
    by (do 2 apply template_ok_insert; exact template_ok_initial).
  assert (Hsame : forall k, k <> "article" -> k <> "access" ->
                    template initial_state !! k = template stale_state !! k).
  { intros k H1 H2. cbn [template stale_state initial_state].
    rewrite lookup_insert_ne by congruence. rewrite lookup_insert_ne by congruence.
    reflexivity. }
  destruct (explicit_title_ignores_stale_template bison_network "Bison" "desktop"
              API_REQUEST_PAGEVIEWS_ENDPOINT REQUEST_HEADERS initial_state stale_state
              Hne template_ok_initial Hok eq_refl Hsame) as (H1 & H2 & _).
  split; [exact H1 | exact H2].
Defined.

Lemma run_keeps_template_fields_witness :
  template_ok (template (snd (data_acquisition bison_network ["Bison"] initial_state))).
Proof.
  apply (proj2 (run_keeps_template_fields bison_network ["Bison"] initial_state)).
  exact template_ok_initial.
Defined.

Lemma all_access_rows_appended_witness :
  exists rows,
    fst (loop_body bison_network "Bison" initial_state) = Ok tt
    /\ cumulative_dict (snd (loop_body bison_network "Bison" initial_state))
       = cumulative_dict initial_state ++ rows
    /\ length rows = length (bison_months 14 26)
    /\ Forall2 (row_of "Bison") (bison_months 14 26) rows.
Proof.
  apply (all_access_rows_appended bison_network "Bison"
           [("items", JList (bison_months 14 26))] (bison_months 14 26)
           initial_state bison_after_mobile
           (snd (fetch bison_network "Bison" "all-access" bison_after_mobile))).
  - vm_compute. reflexivity.
  - vm_compute. reflexivity.
  - reflexivity.
  - repeat constructor; eexists; reflexivity.
Defined.

Lemma aligned_months_all_merged_witness :
  mobile_dict (snd (loop_body bison_network "Bison" initial_state))
  = mobile_dict initial_state
    ++ zip_with (sum_row "Bison") [("2015070100", 1%Z); ("2015080100", 2%Z)]
                                  [("2015070100", 3%Z); ("2015080100", 4%Z)]
  /\ length (zip_with (sum_row "Bison") [("2015070100", 1%Z); ("2015080100", 2%Z)]
                                        [("2015070100", 3%Z); ("2015080100", 4%Z)])
     = length (bison_months 1 2).
Proof.
  apply (aligned_months_all_merged bison_network "Bison"
           [("items", JList (bison_months 1 2))] [("items", JList (bison_months 3 4))]
           (bison_months 1 2) (bison_months 3 4)
           [("2015070100", 1%Z); ("2015080100", 2%Z)]
           [("2015070100", 3%Z); ("2015080100", 4%Z)]
           initial_state bison_after_desktop bison_after_web bison_after_app).
  - vm_compute. reflexivity.
  - vm_compute. reflexivity.
  - vm_compute. reflexivity.
  - reflexivity.
  - reflexivity.
  - repeat constructor.
  - repeat constructor.
  - reflexivity.
Defined.

Lemma mobile_merge_symmetric_witness :
  for_each (mobile_pair "Bison") (zip gap_web gap_app) initial_state
  = for_each (mobile_pair "Bison") (zip gap_app gap_web) initial_state.
Proof.
  apply (mobile_merge_symmetric "Bison" gap_web gap_app
           [("2015070100", 1%Z); ("2015080100", 2%Z); ("2015090100", 3%Z)]
           [("2015070100", 10%Z); ("2015090100", 30%Z)] initial_state);
    repeat constructor.
Defined.

Lemma non_object_response_gives_no_rows_witness :
  exists msg,
    desktop_part scalar_network "Bison" initial_state
    = (Raise (Exn "TypeError" msg), snd (fetch scalar_network "Bison" "desktop" initial_state)).
Proof.
  apply (proj2 (non_object_response_gives_no_rows scalar_network "Bison" (JInt 5)
                  initial_state (snd (fetch scalar_network "Bison" "desktop" initial_state))
                  ltac:(vm_compute; reflexivity) ltac:(discriminate))).
  - reflexivity.
  - discriminate.
Defined.

Lemma rows_before_bad_record_are_kept_witness :
  let s1 := snd (fetch bad_record_network "Bison" "desktop" initial_state) in
  for_each (loop_body bad_record_network) ["Bison"; "Red squirrel"] initial_state
  = (Raise (Exn "KeyError" "'timestamp'"),
     State (template s1)
           (desktop_dict s1 ++ [Pageview "Bison" (JStr "2015070100") (JInt 10)])
           (mobile_dict s1) (cumulative_dict s1) (trace s1) (attempts s1)).
Proof.
  apply (rows_before_bad_record_are_kept bad_record_network "Bison" ["Red squirrel"]
           bad_record_items
           [JDict [("timestamp", JStr "2015070100"); ("views", JInt 10)]] []
           (JDict [("views", JInt 20)])).
  - vm_compute. reflexivity.
  - reflexivity.
  - repeat constructor.
  - left. reflexivity.
Defined.
